(** * sherpa/database.py: the store-mediated trial protocol

    A shallow embedding of [Database] (the controller side) and [Client]
    (the worker side) of [src/sherpa/database.py], with the properties of
    the protocol stated and proved over it.

    Python dictionaries are finite maps from strings, the three MongoDB
    collections are lists of documents in insertion order, and every method
    is a computation in a state-and-exception monad in which the mutations
    done before a [raise] stay visible afterwards, as in Python. *)

From Stdlib Require Import ZArith Ascii String.
From stdpp Require Import gmap strings list fin_maps pretty.

Open Scope Z_scope.
Open Scope string_scope.

(** ** Python values *)

(** The [numpy] fixed-width integer classes.  Only [numpy.int64] is named by
    the source; the others are the values of the sibling classes, for which
    [isinstance(v, numpy.int64)] is false. *)
Inductive np_dtype : Type := np_int8 | np_int16 | np_int32 | np_int64.

(** Scalars.  A finite [float] is the dyadic rational [m * 2^e] (NaN and the
    infinities are left out); an [ObjectId] is identified by a number. *)
Inductive scalar : Type :=
| SNone
| SBool (b : bool)
| SInt (n : Z)
| SFloat (m e : Z)
| SStr (s : string)
| SNumpy (dt : np_dtype) (n : Z)
| SObjectId (n : N).

(** A value is a scalar or a dictionary of scalars ([parameters], [context]). *)
Inductive value : Type :=
| VS (s : scalar)
| VDict (d : gmap string scalar).

(** A MongoDB document, and a Python [dict] with string keys. *)
Abbreviation doc := (gmap string value).

Coercion VS : scalar >-> value.

Global Instance np_dtype_eq_dec : EqDecision np_dtype.
Proof. solve_decision. Defined.

(** *** Equality ([==]) and truth value *)

(** The numeric view of a scalar: [Some (m, e)] stands for [m * 2^e]. *)
Definition num_of (x : scalar) : option (Z * Z) :=
  match x with
  | SBool b => Some (if b then 1 else 0, 0)
  | SInt n => Some (n, 0)
  | SNumpy _ n => Some (n, 0)
  | SFloat m e => Some (m, e)
  | _ => None
  end.

Definition dyadic_eqb (x y : Z * Z) : bool :=
  let e := Z.min (snd x) (snd y) in
  (fst x * 2 ^ (snd x - e) =? fst y * 2 ^ (snd y - e))%Z.

(** [a == b] on scalars: numbers compare by value across [bool], [int],
    [float] and the numpy integers; the rest compares within its own class. *)
Definition scalar_eq (a b : scalar) : bool :=
  match num_of a, num_of b with
  | Some x, Some y => dyadic_eqb x y
  | None, None =>
      match a, b with
      | SNone, SNone => true
      | SStr s, SStr t => bool_decide (s = t)
      | SObjectId i, SObjectId j => (i =? j)%N
      | _, _ => false
      end
  | _, _ => false
  end.

(** [a == b] on dictionaries: the same keys, with equal values. *)
Definition dict_eq (a b : gmap string scalar) : bool :=
  forallb (λ kv, match b !! kv.1 with
                 | Some y => scalar_eq kv.2 y
                 | None => false
                 end) (map_to_list a)
  && forallb (λ kv, bool_decide (is_Some (a !! kv.1))) (map_to_list b).

Definition py_eq (a b : value) : bool :=
  match a, b with
  | VS x, VS y => scalar_eq x y
  | VDict x, VDict y => dict_eq x y
  | _, _ => false
  end.

(** [x in l] for a Python list [l]. *)
Definition py_in (x : value) (l : list value) : bool := existsb (py_eq x) l.

(** [bool(x)]. *)
Definition truthy (x : scalar) : bool :=
  match x with
  | SNone => false
  | SBool b => b
  | SInt n => negb (n =? 0)%Z
  | SFloat m _ => negb (m =? 0)%Z
  | SStr s => negb (bool_decide (s = ""))
  | SNumpy _ n => negb (n =? 0)%Z
  | SObjectId _ => true
  end.

(** [bool(d)] of a dictionary: it is not empty. *)
Definition dict_truthy {A} (d : gmap string A) : bool :=
  negb (bool_decide (d = ∅)).

(** [a or b]. *)
Definition py_or (a b : scalar) : scalar := if truthy a then a else b.

(** [d.get(k)]: the value, or [None]. *)
Definition dict_get (d : doc) (k : string) : value :=
  match d !! k with
  | Some v => v
  | None => VS SNone
  end.

(** ** Exceptions, and the monad of the methods *)

Inductive exn_class : Type :=
| AssertionError | EnvironmentError | RuntimeError | StopIteration
| InvalidDocument | AttributeError | KeyError | ValueError | TypeError
| FileNotFoundError | OtherError.

Record exn : Type := Exn { cls : exn_class; msg : string }.

Global Instance exn_class_eq_dec : EqDecision exn_class.
Proof. solve_decision. Defined.

Inductive outcome (A : Type) : Type :=
| Return (a : A)
| Raise (e : exn).
Arguments Return {A} a.
Arguments Raise {A} e.

(** A method run from state [s] ends in [Return a] or in [Raise e], and in
    both cases leaves a state behind. *)
Definition M (S A : Type) : Type := S → outcome A * S.

Definition ret {S A} (a : A) : M S A := λ s, (Return a, s).

Definition bind {S A B} (c : M S A) (k : A → M S B) : M S B :=
  λ s, match c s with
       | (Return a, s') => k a s'
       | (Raise e, s') => (Raise e, s')
       end.

Definition raise {S A} (e : exn) : M S A := λ s, (Raise e, s).

Definition get {S} : M S S := λ s, (Return s, s).

Definition modify {S} (f : S → S) : M S unit := λ s, (Return tt, f s).

(** [try: c except cls: h] *)
Definition try_except {S A} (c : M S A) (on : exn_class) (h : M S A) : M S A :=
  λ s, match c s with
       | (Raise e, s') =>
           if bool_decide (cls e = on) then h s' else (Raise e, s')
       | r => r
       end.

Declare Scope py_scope.
Delimit Scope py_scope with py.
Notation "x <- c ;; k" := (bind c (λ x, k))
  (at level 100, c at next level, right associativity) : py_scope.
Notation "c ;; k" := (bind c (λ _, k))
  (at level 100, right associativity) : py_scope.
Open Scope py_scope.

(** [for x in l: body x] *)
Fixpoint for_each {S A} (l : list A) (body : A → M S unit) : M S unit :=
  match l with
  | [] => ret tt
  | x :: l' => body x ;; for_each l' body
  end.

(** ** The world outside the two classes *)

(** What [subprocess.Popen(cmd)] returns: the handle of the launched process. *)
Record Popen : Type := { args : list string }.

(** The state outside the Python objects: the three collections of the
    [sherpa] database in insertion order, the next [ObjectId] the driver
    hands out, what [poll()] of the launched [mongod] answers ([None] while it
    runs, its return code afterwards), the exception that launching it
    raises, if any (its [msg] is [str(e)]), the [time.sleep] calls made so
    far, and the worker's [os.environ]. *)
Record world : Type := {
  db_trials : list doc;
  db_results : list doc;
  db_stop : list doc;
  next_oid : N;
  poll : option Z;
  popen_error : option exn;
  slept : list Z;
  environ : gmap string string
}.

(** The attributes of a [Database] object ([self.client] and [self.db] are
    the connection to the collections of [world]). *)
Record Database : Type := {
  collected_results : list value;
  mongo_process : option Popen;
  dir : string;
  port : Z
}.

(** The state of a [Database] method: the object and the world. *)
Record ctl : Type := { self : Database; w : world }.

Inductive collection : Type := trials | results | stop.

Definition find_all (c : collection) (wd : world) : list doc :=
  match c with
  | trials => db_trials wd
  | results => db_results wd
  | stop => db_stop wd
  end.

Definition append_doc (c : collection) (d : doc) (wd : world) : world :=
  match c with
  | trials =>
      {| db_trials := db_trials wd ++ [d]; db_results := db_results wd;
         db_stop := db_stop wd; next_oid := next_oid wd; poll := poll wd;
         popen_error := popen_error wd; slept := slept wd;
         environ := environ wd |}
  | results =>
      {| db_trials := db_trials wd; db_results := db_results wd ++ [d];
         db_stop := db_stop wd; next_oid := next_oid wd; poll := poll wd;
         popen_error := popen_error wd; slept := slept wd;
         environ := environ wd |}
  | stop =>
      {| db_trials := db_trials wd; db_results := db_results wd;
         db_stop := db_stop wd ++ [d]; next_oid := next_oid wd; poll := poll wd;
         popen_error := popen_error wd; slept := slept wd;
         environ := environ wd |}
  end.

Definition take_oid (wd : world) : world :=
  {| db_trials := db_trials wd; db_results := db_results wd;
     db_stop := db_stop wd; next_oid := N.succ (next_oid wd); poll := poll wd;
     popen_error := popen_error wd; slept := slept wd;
     environ := environ wd |}.

Definition add_sleep (t : Z) (wd : world) : world :=
  {| db_trials := db_trials wd; db_results := db_results wd;
     db_stop := db_stop wd; next_oid := next_oid wd; poll := poll wd;
     popen_error := popen_error wd; slept := slept wd ++ [t];
     environ := environ wd |}.

(** [time.sleep(t)] *)
Definition sleep (t : Z) : M world unit := modify (add_sleep t).

(** A [Client] method is a computation on the world; inside a [Database]
    method the same computation leaves [self] alone. *)
Definition in_world {A} (c : M world A) : M ctl A :=
  λ s, let (r, wd) := c (w s) in (r, {| self := self s; w := wd |}).

Definition set_collected_results (l : list value) (db : Database) : Database :=
  {| collected_results := l; mongo_process := mongo_process db;
     dir := dir db; port := port db |}.

Definition set_mongo_process (p : option Popen) (db : Database) : Database :=
  {| collected_results := collected_results db; mongo_process := p;
     dir := dir db; port := port db |}.

Definition on_self (f : Database → Database) : M ctl unit :=
  modify (λ s, {| self := f (self s); w := w s |}).

(** Modelled from the spec: the class [sherpa.Trial] (sherpa/core.py is not
    part of the sources at hand): "one concrete parameter assignment under
    evaluation, identified by a unique integer id", an object with the two
    attributes [id] and [parameters] that [database.py] reads and sets. *)
Module Trial.
Record t : Type := make { id : value; parameters : value }.
End Trial.

(** What [Client.__init__] hands to [MongoClient]: the host and the port
    of the store (the connection itself is made by the driver). *)
Module Client.
Record t : Type := make { host : scalar; port : Z }.
End Client.

(** *** Two concrete stand-ins for the libraries, for running examples *)

(** A BSON encoder that refuses exactly the numpy integers, with the
    driver's [InvalidDocument]. *)
Definition is_numpy (x : scalar) : bool :=
  match x with SNumpy _ _ => true | _ => false end.

Definition has_numpy (v : value) : bool :=
  match v with
  | VS x => is_numpy x
  | VDict d => existsb (λ kv, is_numpy kv.2) (map_to_list d)
  end.

Definition rejects_numpy (d : doc) : option exn :=
  if existsb (λ kv, has_numpy kv.2) (map_to_list d)
  then Some (Exn InvalidDocument "cannot encode object")
  else None.

(** [int(s)] on plain decimal numerals, [ValueError] ([None]) otherwise. *)
Fixpoint decimal_digits (s : string) (acc : Z) : option Z :=
  match s with
  | EmptyString => Some acc
  | String c s' =>
      let n := Z.of_nat (Ascii.nat_of_ascii c) in
      if ((48 <=? n) && (n <=? 57))%Z
      then decimal_digits s' (10 * acc + (n - 48))
      else None
  end.

Definition decimal (s : string) : option Z :=
  match s with
  | EmptyString => None
  | _ => decimal_digits s 0
  end.

(** [os.path.join(a, b)] for a relative [b]. *)
Definition ends_with_slash (a : string) : bool :=
  match last (String.list_ascii_of_string a) with
  | Some c => bool_decide (c = "/"%char)
  | None => false
  end.

Definition path_join (a b : string) : string :=
  if bool_decide (a = "") then b
  else if ends_with_slash a then a +:+ b
  else a +:+ "/" +:+ b.

Definition newline : string := String (Ascii.ascii_of_nat 10) "".

(** The integers that BSON encodes: those of 8 bytes. *)
Definition fits_int64 (n : Z) : Prop := (- 2 ^ 63 <= n < 2 ^ 63)%Z.

Section Protocol.

(** What the driver's BSON encoder does with a document: [None] when it
    encodes, and otherwise the exception that [insert_one] raises. *)
Variable bson_error : doc → option exn.

(** [int(s)] of a string, [None] for [ValueError]. *)
Variable int_of_str : string → option Z.

(** ** The driver: [collection.insert_one] and [collection.find] *)

(** [insert_one(d)] starts by giving [d] an [_id] when it has none; this is
    an assignment into the caller's dictionary, visible also when the
    insertion then fails. *)
Definition with_id (d : doc) : M world doc :=
  match d !! "_id" with
  | Some _ => ret d
  | None =>
      wd <- get;;
      modify take_oid;;
      ret (<["_id" := VS (SObjectId (next_oid wd))]> d)
  end.

(** Then the document is encoded and appended; the result is [inserted_id]. *)
Definition send_doc (c : collection) (d : doc) : M world value :=
  match bson_error d with
  | Some e => raise e
  | None => modify (append_doc c d);; ret (dict_get d "_id")
  end.

Definition insert_one (c : collection) (d : doc) : M world value :=
  d' <- with_id d;; send_doc c d'.

(** The filter [{'trial_id': n}]: the field is a number equal to [n] (BSON
    numbers compare by value, whatever their width). *)
Definition matches_trial_id (n : Z) (d : doc) : bool :=
  match d !! "trial_id" with
  | Some (VS (SInt k)) => (k =? n)%Z
  | Some (VS (SFloat m e)) => dyadic_eqb (m, e) (n, 0)
  | _ => false
  end.

(** ** class Database *)

(** [check_db_status]: [if status:] is taken for a return code other than 0;
    on a [Database] that was never started, [self.mongo_process] is [None]
    and has no [poll]. *)
Definition check_db_status : M ctl unit :=
  s <- get;;
  match mongo_process (self s) with
  | None =>
      raise (Exn AttributeError "'NoneType' object has no attribute 'poll'")
  | Some _ =>
      let status := poll (w s) in
      match status with
      | Some n =>
          if negb (n =? 0)%Z
          then raise (Exn EnvironmentError
                        ("Database exited with code " +:+ pretty n))
          else ret tt
      | None => ret tt
      end
  end.

(** [start]: only a [FileNotFoundError] of [Popen] is caught and raised
    again with the hint; any other exception of [Popen] passes through. *)
Definition start : M ctl unit :=
  s <- get;;
  let cmd := ["mongod"; "--dbpath"; dir (self s);
              "--port"; pretty (port (self s));
              "--logpath"; path_join (dir (self s)) "log.txt"] in
  match popen_error (w s) with
  | Some e =>
      if bool_decide (cls e = FileNotFoundError)
      then raise (Exn FileNotFoundError
                    (msg e +:+ newline
                       +:+ "Check that MongoDB is installed and in PATH."))
      else raise e
  | None =>
      on_self (set_mongo_process (Some {| args := cmd |}));;
      in_world (sleep 1);;
      check_db_status
  end.

(** The loop of [get_new_results] over the entries that [find()] yields;
    [new_results] is the local list, [self.collected_results] is in the
    state.  [pop('_id')] raises [KeyError] on an entry without that key. *)
Fixpoint get_new_results_loop (entries : list doc) (new_results : list doc)
  : M ctl (list doc) :=
  match entries with
  | [] => ret new_results
  | entry :: rest =>
      match entry !! "_id" with
      | None => raise (Exn KeyError "'_id'")
      | Some mongo_id =>
          let result := delete "_id" entry in
          s <- get;;
          if negb (py_in mongo_id (collected_results (self s)))
          then
            on_self (λ db, set_collected_results
                             (collected_results db ++ [mongo_id]) db);;
            get_new_results_loop rest (new_results ++ [result])
          else get_new_results_loop rest new_results
      end
  end.

Definition get_new_results : M ctl (list doc) :=
  check_db_status;;
  s <- get;;
  get_new_results_loop (find_all results (w s)) [].

(** [type(x).__name__] as it shows in the message of an [AttributeError]. *)
Definition type_name (x : scalar) : string :=
  match x with
  | SNone => "NoneType"
  | SBool _ => "bool"
  | SInt _ => "int"
  | SFloat _ _ => "float"
  | SStr _ => "str"
  | SNumpy np_int8 _ => "numpy.int8"
  | SNumpy np_int16 _ => "numpy.int16"
  | SNumpy np_int32 _ => "numpy.int32"
  | SNumpy np_int64 _ => "numpy.int64"
  | SObjectId _ => "ObjectId"
  end.

(** What [x.items()] raises for a scalar [x]. *)
Definition no_items (x : scalar) : exn :=
  Exn AttributeError
    ("'" +:+ type_name x +:+ "' object has no attribute 'items'").

(** [if isinstance(v, numpy.int64): v = int(v)] *)
Definition to_int (v : scalar) : scalar :=
  match v with
  | SNumpy np_int64 n => SInt n
  | _ => v
  end.

(** The loop that fills [new_params]; the order in which the items are
    visited does not show in the dictionary that results. *)
Definition new_params (parameters : gmap string scalar) : gmap string scalar :=
  map_fold (λ k v acc, <[k := to_int v]> acc) ∅ parameters.

Definition enqueue_trial (trial : Trial.t) : M ctl unit :=
  check_db_status;;
  let trial : doc := {[ "trial_id" := Trial.id trial;
                        "parameters" := Trial.parameters trial ]} in
  in_world
    (trial <- with_id trial;;
     try_except
       (send_doc trials trial;; ret tt)
       InvalidDocument
       (match dict_get trial "parameters" with
        | VDict parameters =>
            let trial := <["parameters" := VDict (new_params parameters)]> trial in
            insert_one trials trial;; ret tt
        | VS x => raise (no_items x)
        end)).

Definition add_for_stopping (trial_id : value) : M ctl unit :=
  check_db_status;;
  in_world (insert_one stop {[ "trial_id" := trial_id ]});;
  ret tt.

(** [Database(db_dir, port, reinstantiated)] *)
Definition Database_init (db_dir : string) (port : Z) (reinstantiated : bool)
  : M world Database :=
  λ wd,
    let s := {| self := {| collected_results := []; mongo_process := None;
                           dir := db_dir; port := port |};
                w := wd |} in
    if reinstantiated
    then match get_new_results s with
         | (Return _, s') => (Return (self s'), w s')
         | (Raise e, s') => (Raise e, w s')
         end
    else (Return (self s), wd).

(** ** class Client *)

(** [os.environ.get(k)] *)
Definition environ_get (k : string) : M world scalar :=
  wd <- get;;
  ret (match environ wd !! k with
       | Some s => SStr s
       | None => SNone
       end).

(** [int(x)].  Of the exceptions of [int] the class is what is modelled:
    the message that Python gives also names the literal or the type of the
    argument, and differs between versions. *)
Definition py_int (x : scalar) : M world Z :=
  match x with
  | SBool b => ret (if b then 1 else 0)
  | SInt n => ret n
  | SNumpy _ n => ret n
  | SFloat m e => ret (if (0 <=? e)%Z then m * 2 ^ e else Z.quot m (2 ^ (- e)))
  | SStr s =>
      match int_of_str s with
      | Some n => ret n
      | None => raise (Exn ValueError "invalid literal for int() with base 10")
      end
  | SNone | SObjectId _ =>
      raise (Exn TypeError "int() argument must be a string or a number")
  end.

Definition assert_message : string :=
  "Environment-variable SHERPA_TRIAL_ID not found. Scheduler needs to set this variable in the environment when submitting a job".

(** The [for _ in range(5)] loop of [get_trial], [n] rounds being left;
    [t] is the local variable of that name (unbound before the first
    round).  [next(g)] of a generator over no match raises [StopIteration].
    The query [{'trial_id': trial_id}] is taken to reach the store, which it
    does for an id that fits in 8 bytes ([fits_int64]): beyond, the driver
    cannot encode the filter. *)
Fixpoint get_trial_loop (n : nat) (trial_id : Z) (t : option doc)
  : M world (option doc) :=
  match n with
  | O => ret t
  | S n' =>
      wd <- get;;
      match List.filter (matches_trial_id trial_id) (find_all trials wd) with
      | [] => raise (Exn StopIteration "")
      | t :: _ =>
          if dict_truthy t then ret (Some t)
          else sleep 10;; get_trial_loop n' trial_id (Some t)
      end
  end.

(** Lines 163-164 of [get_trial]: the [assert] and [trial_id = int(...)]. *)
Definition get_trial_id (id : scalar) : M world Z :=
  e <- environ_get "SHERPA_TRIAL_ID";;
  if negb (truthy (py_or id e)) then raise (Exn AssertionError assert_message)
  else
    e <- environ_get "SHERPA_TRIAL_ID";;
    py_int (py_or id e).

(** Lines 165-173 of [get_trial]: the polling loop and what follows it. *)
Definition get_trial_poll (trial_id : Z) : M world Trial.t :=
  t <- get_trial_loop 5 trial_id None;;
  match t with
  | None =>
      raise (Exn OtherError "local variable 't' referenced before assignment")
  | Some t =>
      if negb (dict_truthy t) then raise (Exn RuntimeError "No Trial Found!")
      else ret (Trial.make (dict_get t "trial_id") (dict_get t "parameters"))
  end.

Definition get_trial (id : scalar) : M world Trial.t :=
  trial_id <- get_trial_id id;;
  get_trial_poll trial_id.

Definition send_metrics (trial : Trial.t) (iteration objective context : value)
  : M world unit :=
  let result : doc := {[ "parameters" := Trial.parameters trial;
                         "trial_id" := Trial.id trial;
                         "objective" := objective;
                         "iteration" := iteration;
                         "context" := context ]} in
  insert_one results result;;
  wd <- get;;
  for_each (find_all stop wd)
    (λ entry,
       if py_eq (dict_get entry "trial_id") (Trial.id trial)
       then raise (Exn StopIteration "Trial listed for stopping.")
       else ret tt).

(** [Client(host, port)]: each of the two is the argument, else the
    environment variable, else the default; the port goes through [int]. *)
Definition Client_init (host port : scalar) : M world Client.t :=
  e <- environ_get "SHERPA_DB_HOST";;
  let host := py_or (py_or host e) (SStr "localhost") in
  e <- environ_get "SHERPA_DB_PORT";;
  let port := py_or (py_or port e) (SInt 27010) in
  port <- py_int port;;
  ret (Client.make host port).

End Protocol.

(** ** Notions used to state the properties *)

(** The [_id]s of a list of stored documents. *)
Definition entry_ids (l : list doc) : list value :=
  omap (λ e : doc, e !! "_id") l.

(** The entries of [entries] that a scan starting with the ids [seen]
    has not seen: each one is compared with [seen] and with the ids of the
    entries kept before it. *)
Fixpoint new_entries (seen : list value) (entries : list doc) : list doc :=
  match entries with
  | [] => []
  | e :: es =>
      match e !! "_id" with
      | Some i =>
          if py_in i seen then new_entries seen es
          else e :: new_entries (seen ++ [i]) es
      | None => []
      end
  end.

(** The stored entries behind the records that one [get_new_results] call
    hands to its caller (none when the call raises). *)
Definition delivered (s : ctl) : list doc :=
  match (get_new_results s).1 with
  | Return _ => new_entries (collected_results (self s)) (db_results (w s))
  | Raise _ => []
  end.

(** The life of one [Database] object [db]: a [get_new_results] call in each
    of the worlds [ws] in turn (the store and the process may have changed in
    any way in between).  [session_returns] lists what the calls return,
    [session] the entries delivered by each. *)
Fixpoint session_returns (db : Database) (ws : list world)
  : list (outcome (list doc)) :=
  match ws with
  | [] => []
  | wd :: ws' =>
      let r := get_new_results {| self := db; w := wd |} in
      r.1 :: session_returns (self r.2) ws'
  end.

Fixpoint session (db : Database) (ws : list world) : list (list doc) :=
  match ws with
  | [] => []
  | wd :: ws' =>
      let s := {| self := db; w := wd |} in
      delivered s :: session (self (get_new_results s).2) ws'
  end.

(** [ext] extends the ids [base] one by one, each new id being [not in]
    what precedes it. *)
Inductive extends_fresh (base : list value) : list value → Prop :=
| extends_nil : extends_fresh base []
| extends_snoc ext x :
    extends_fresh base ext →
    py_in x (base ++ ext) = false →
    extends_fresh base (ext ++ [x]).

(** The store is append-only between two worlds: each collection of the
    later one starts with that of the earlier one. *)
Definition grows (wd wd' : world) : Prop :=
  db_trials wd `prefix_of` db_trials wd'
  ∧ db_results wd `prefix_of` db_results wd'
  ∧ db_stop wd `prefix_of` db_stop wd'.

(** The same, between two states of a [Database] method. *)
Definition grows_ctl (s s' : ctl) : Prop := grows (w s) (w s').

(** The computation [c] only moves a state to one related to it by [R],
    whether it returns or raises. *)
Definition stays {S} (R : relation S) {A} (c : M S A) : Prop :=
  ∀ s, R s (c s).2.

(** Some stop request carries the trial id [tid]. *)
Definition stop_requested (tid : value) (wd : world) : bool :=
  existsb (λ entry : doc, py_eq (dict_get entry "trial_id") tid) (db_stop wd).

(** The signal that [send_metrics] raises for a trial listed for stopping. *)
Definition cancellation : exn :=
  Exn StopIteration "Trial listed for stopping.".

(** The document that [send_metrics] hands to [insert_one], once it has
    its [_id]. *)
Definition result_doc (trial : Trial.t) (iteration objective context : value)
  (oid : N) : doc :=
  <["_id" := VS (SObjectId oid)]>
    ({[ "parameters" := Trial.parameters trial;
        "trial_id" := Trial.id trial;
        "objective" := objective;
        "iteration" := iteration;
        "context" := context ]} : doc).

(** The document that [enqueue_trial] hands to [insert_one], once it has
    its [_id]. *)
Definition trial_doc (trial : Trial.t) (oid : N) : doc :=
  <["_id" := VS (SObjectId oid)]>
    ({[ "trial_id" := Trial.id trial;
        "parameters" := Trial.parameters trial ]} : doc).

(** The integer a scalar stands for, when it is one. *)
Definition integral (x : scalar) : option Z :=
  match x with
  | SInt n | SNumpy _ n => Some n
  | _ => None
  end.

(** The sentence of the specification on normalization, for a store whose
    native encoding represents the scalars in [representable]: every
    parameter value outside it is replaced, in the retried document, by a
    representable value with the same integral value. *)
Definition normalizes_every_unsupported (representable : scalar → bool)
  (parameters : gmap string scalar) : Prop :=
  ∀ k v, parameters !! k = Some v → representable v = false →
    ∃ v', new_params parameters !! k = Some v'
          ∧ representable v' = true ∧ integral v' = integral v.

(** Every entry of a list of stored documents has an [_id]. *)
Definition has_ids (l : list doc) : Prop :=
  Forall (λ e : doc, is_Some (e !! "_id")) l.

(** The record that [get_new_results] returns for a report of
    [send_metrics]. *)
Definition result_record (trial : Trial.t) (iteration objective context : value)
  : doc :=
  {[ "parameters" := Trial.parameters trial;
     "trial_id" := Trial.id trial;
     "objective" := objective;
     "iteration" := iteration;
     "context" := context ]}.

(** The stop request that [add_for_stopping] stores. *)
Definition stop_doc (trial_id : value) (oid : N) : doc :=
  <["_id" := VS (SObjectId oid)]> ({[ "trial_id" := trial_id ]} : doc).

(** The state next to another world. *)
Definition in_state (s : ctl) (wd : world) : ctl :=
  {| self := self s; w := wd |}.

(** What [check_db_status] raises on a [Database] never started. *)
Definition no_poll : exn :=
  Exn AttributeError "'NoneType' object has no attribute 'poll'".

(** The state in which [start] runs its liveness check: the process is
    launched and the grace period has passed. *)
Definition started_state (s : ctl) : ctl :=
  {| self :=
       set_mongo_process
         (Some {| args := ["mongod"; "--dbpath"; dir (self s);
                           "--port"; pretty (port (self s));
                           "--logpath"; path_join (dir (self s)) "log.txt"] |})
         (self s);
     w := add_sleep 1 (w s) |}.

(** The sentence of the specification on what a [send_metrics] call adds:
    from [wd] to [wd'] the results have gained exactly one record, with the
    iteration, the objective and the context of the call. *)
Definition appends_one_record (wd wd' : world)
  (iteration objective context : value) : Prop :=
  ∃ d : doc, db_results wd' = (db_results wd ++ [d])%list
             ∧ d !! "iteration" = Some iteration
             ∧ d !! "objective" = Some objective
             ∧ d !! "context" = Some context.

(** The sentence of the specification on cancellation: the outcome [r] of a
    [send_metrics] call for the trial [tid] in the world [wd] is the
    cancellation signal exactly when a stop request carries [tid], and a
    normal return when none does. *)
Definition cancels_exactly_when_listed (r : outcome unit) (tid : value)
  (wd : world) : Prop :=
  (r = Raise cancellation ↔ stop_requested tid wd = true)
  ∧ (stop_requested tid wd = false → r = Return tt).

(** *** Concrete states for the examples *)

Definition empty_world : world :=
  {| db_trials := []; db_results := []; db_stop := []; next_oid := 0;
     poll := None; popen_error := None; slept := []; environ := ∅ |}.

Definition running (db_dir : string) (p : Z) : Database :=
  {| collected_results := [];
     mongo_process :=
       Some {| args := ["mongod"; "--dbpath"; db_dir; "--port"; pretty p;
                        "--logpath"; path_join db_dir "log.txt"] |};
     dir := db_dir; port := p |}.

Definition with_results (l : list doc) (wd : world) : world :=
  {| db_trials := db_trials wd; db_results := l; db_stop := db_stop wd;
     next_oid := next_oid wd; poll := poll wd; popen_error := popen_error wd;
     slept := slept wd; environ := environ wd |}.

Definition with_poll (st : option Z) (wd : world) : world :=
  {| db_trials := db_trials wd; db_results := db_results wd;
     db_stop := db_stop wd; next_oid := next_oid wd; poll := st;
     popen_error := popen_error wd; slept := slept wd;
     environ := environ wd |}.

Definition with_environ (env : gmap string string) (wd : world) : world :=
  {| db_trials := db_trials wd; db_results := db_results wd;
     db_stop := db_stop wd; next_oid := next_oid wd; poll := poll wd;
     popen_error := popen_error wd; slept := slept wd; environ := env |}.

(** A started [Database] next to an empty store. *)
Definition started : ctl :=
  {| self := running "/tmp/db" 27010; w := empty_world |}.

(** The same after [mongod] has died with return code 1. *)
Definition crashed : ctl :=
  {| self := running "/tmp/db" 27010; w := with_poll (Some 1) empty_world |}.

(** Trial 1 with [lr = 0.5], and with a [batch_size] of 32 in three classes. *)
Definition trial_1 : Trial.t :=
  Trial.make (SInt 1) (VDict {[ "lr" := SFloat 1 (-1) ]}).

Definition trial_int : Trial.t :=
  Trial.make (SInt 1) (VDict {[ "batch_size" := SInt 32 ]}).

Definition trial_int64 : Trial.t :=
  Trial.make (SInt 1) (VDict {[ "batch_size" := SNumpy np_int64 32 ]}).

Definition trial_int32 : Trial.t :=
  Trial.make (SInt 1) (VDict {[ "batch_size" := SNumpy np_int32 32 ]}).

(** A store with one stop request for trial 1. *)
Definition stop_1 : doc :=
  <["_id" := VS (SObjectId 0)]> ({[ "trial_id" := VS (SInt 1) ]} : doc).

Definition stopped_world : world :=
  {| db_trials := []; db_results := []; db_stop := [stop_1]; next_oid := 1;
     poll := None; popen_error := None; slept := []; environ := ∅ |}.

(** A store with the first report of trial 1, and with a second one. *)
Definition report_1 : doc :=
  result_doc trial_1 (SInt 1) (SFloat 1 (-1)) (VDict ∅) 0.

Definition report_2 : doc :=
  result_doc trial_1 (SInt 2) (SFloat 1 (-2)) (VDict ∅) 1.

Definition reported_world : world := with_results [report_1] empty_world.

Definition reported_twice_world : world :=
  with_results [report_1; report_2] empty_world.

(** A worker's world with [SHERPA_TRIAL_ID=7]. *)
Definition worker_world : world :=
  with_environ {[ "SHERPA_TRIAL_ID" := "7" ]} empty_world.

(** The store after the first report of trial 1 has been sent. *)
Definition after_report : world :=
  append_doc results report_1 (take_oid empty_world).

(** A results collection whose second entry has no [_id]. *)
Definition broken_world : world :=
  with_results [report_1; delete "_id" report_2] empty_world.

(** A started [Database] whose store holds the request for trial 1, and a
    second trial under the same id. *)
Definition enqueued : ctl :=
  in_state started
    (append_doc trials (trial_doc trial_1 0) (take_oid empty_world)).

Definition trial_1_again : Trial.t :=
  Trial.make (SInt 1) (VDict {[ "lr" := SFloat 1 (-2) ]}).

(** The state after [add_for_stopping] for trial 1 on [started]. *)
Definition listed : ctl :=
  in_state started
    (append_doc stop (stop_doc (VS (SInt 1)) 0) (take_oid empty_world)).

(** The store after [trial_1_again] was enqueued next to trial 1. *)
Definition enqueued_twice : world :=
  append_doc trials (trial_doc trial_1_again 1) (take_oid (w enqueued)).

(** A BSON encoder that refuses the integers wider than 8 bytes, with the
    driver's [OverflowError], and a trial with such an id. *)
Definition is_wide (v : value) : bool :=
  match v with
  | VS (SInt n) => negb ((- 2 ^ 63 <=? n) && (n <? 2 ^ 63))%Z
  | _ => false
  end.

Definition rejects_wide (d : doc) : option exn :=
  if existsb (λ kv, is_wide kv.2) (map_to_list d)
  then Some (Exn OtherError "MongoDB can only handle up to 8-byte ints")
  else None.

Definition trial_wide : Trial.t := Trial.make (SInt (2 ^ 63)) (VDict ∅).

(** A trial whose id is a [numpy.int64] and whose parameters are [None]. *)
Definition trial_no_dict : Trial.t :=
  Trial.make (SNumpy np_int64 1) (VS SNone).

(** The world in which [mongod] is not installed, and the one in which it
    ends at once with return code 48. *)
Definition no_mongod : world :=
  {| db_trials := []; db_results := []; db_stop := []; next_oid := 0;
     poll := None;
     popen_error :=
       Some (Exn FileNotFoundError
               "[Errno 2] No such file or directory: 'mongod'");
     slept := []; environ := ∅ |}.

(** The world in which [mongod] is found and may not be executed: [Popen]
    raises an exception of another class ([PermissionError]). *)
Definition mongod_not_executable : world :=
  {| db_trials := []; db_results := []; db_stop := []; next_oid := 0;
     poll := None;
     popen_error := Some (Exn OtherError "[Errno 13] Permission denied: 'mongod'");
     slept := []; environ := ∅ |}.

Definition not_started (wd : world) : ctl :=
  {| self := {| collected_results := []; mongo_process := None;
                dir := "/tmp/db"; port := 27010 |};
     w := wd |}.

(** * Properties *)

(** ** Equality is reflexive *)

Lemma dyadic_eqb_refl x : dyadic_eqb x x = true.
Proof. unfold dyadic_eqb. apply Z.eqb_refl. Qed.

Lemma scalar_eq_refl a : scalar_eq a a = true.
Proof.
  destruct a; unfold scalar_eq; simpl;
    auto using dyadic_eqb_refl, N.eqb_refl.
  by apply bool_decide_eq_true.
Qed.

Lemma dict_eq_refl d : dict_eq d d = true.
Proof.
  unfold dict_eq. apply andb_true_iff; split; apply forallb_forall.
  - intros [k v] Hin. apply list_elem_of_In, elem_of_map_to_list in Hin.
    simpl. rewrite Hin. apply scalar_eq_refl.
  - intros [k v] Hin. apply list_elem_of_In, elem_of_map_to_list in Hin.
    simpl. apply bool_decide_eq_true. eauto.
Qed.

Lemma py_eq_refl v : py_eq v v = true.
Proof. destruct v; simpl; auto using scalar_eq_refl, dict_eq_refl. Qed.

Lemma py_in_elem_of x l : x ∈ l → py_in x l = true.
Proof.
  intros Hx. unfold py_in. apply existsb_exists. exists x. split.
  - by apply list_elem_of_In.
  - apply py_eq_refl.
Qed.

Lemma py_in_app x l1 l2 : py_in x (l1 ++ l2) = py_in x l1 || py_in x l2.
Proof. unfold py_in. apply existsb_app. Qed.

(** ** Chains of fresh ids *)

Lemma extends_fresh_app base e1 e2 :
  extends_fresh base e1 → extends_fresh (base ++ e1) e2 →
  extends_fresh base (e1 ++ e2).
Proof.
  intros H1 H2. induction H2 as [|ext x _ IH Hx].
  - by rewrite app_nil_r.
  - rewrite app_assoc. constructor; [exact IH|]. by rewrite app_assoc.
Qed.

Lemma extends_fresh_cons base x ext :
  py_in x base = false → extends_fresh (base ++ [x]) ext →
  extends_fresh base (x :: ext).
Proof.
  intros Hx H. change (x :: ext) with ([x] ++ ext)%list.
  apply extends_fresh_app; [|exact H].
  change [x] with ([] ++ [x])%list. constructor; [constructor|].
  by rewrite app_nil_r.
Qed.

Lemma extends_fresh_NoDup base ext : extends_fresh base ext → NoDup ext.
Proof.
  induction 1 as [|ext x _ IH Hx]; [constructor|].
  apply NoDup_app. split; [exact IH|]. split; [|apply NoDup_singleton].
  intros y Hy Hy'. apply list_elem_of_singleton in Hy' as ->.
  rewrite py_in_app in Hx. apply orb_false_iff in Hx as [_ Hx].
  by rewrite py_in_elem_of in Hx.
Qed.

Lemma extends_fresh_sublist base e1 e2 :
  e1 `sublist_of` e2 → extends_fresh base e2 → NoDup e1.
Proof. intros Hs He. eapply sublist_NoDup; eauto using extends_fresh_NoDup. Qed.

(** ** The liveness check *)

Lemma check_db_status_state s : (check_db_status s).2 = s.
Proof.
  unfold check_db_status, bind, get, raise, ret. simpl.
  destruct (mongo_process (self s)); [|done].
  destruct (poll (w s)) as [n|]; [|done]. by destruct (negb (n =? 0)%Z).
Qed.

Lemma check_db_status_eq s : check_db_status s = ((check_db_status s).1, s).
Proof. rewrite <- (check_db_status_state s) at 3. by destruct (check_db_status s). Qed.

Lemma check_db_status_cases s :
  check_db_status s = (Return tt, s) ∨ ∃ e, check_db_status s = (Raise e, s).
Proof.
  rewrite (check_db_status_eq s).
  destruct (check_db_status s).1 as [[]|e]; eauto.
Qed.

(** ** The scan of [get_new_results] *)

Lemma new_entries_sublist seen entries :
  new_entries seen entries `sublist_of` entries.
Proof.
  revert seen. induction entries as [|e es IH]; intros seen; simpl; [done|].
  destruct (e !! "_id") as [i|]; [|apply sublist_nil_l].
  destruct (py_in i seen); [by apply sublist_cons|by apply sublist_skip].
Qed.

Lemma new_entries_fresh seen entries :
  extends_fresh seen (entry_ids (new_entries seen entries))
  ∧ length (entry_ids (new_entries seen entries))
    = length (new_entries seen entries).
Proof.
  revert seen. induction entries as [|e es IH]; intros seen; simpl.
  { split; [constructor|done]. }
  destruct (e !! "_id") as [i|] eqn:Hi; [|split; [constructor|done]].
  destruct (py_in i seen) eqn:Hin; [apply IH|].
  unfold entry_ids. simpl. rewrite Hi. simpl.
  destruct (IH (seen ++ [i])%list) as [IH1 IH2]. split.
  - by apply extends_fresh_cons.
  - f_equal. exact IH2.
Qed.

Lemma new_entries_not_seen seen entries e :
  e ∈ new_entries seen entries →
  ∃ i, e !! "_id" = Some i ∧ py_in i seen = false.
Proof.
  revert seen. induction entries as [|e' es IH]; intros seen; simpl.
  { by intros ?%elem_of_nil. }
  destruct (e' !! "_id") as [i|] eqn:Hi; [|by intros ?%elem_of_nil].
  destruct (py_in i seen) eqn:Hin; [by apply IH|].
  intros [->|He]%elem_of_cons; [eauto|].
  destruct (IH _ He) as (j & Hj & Hnot). exists j. split; [done|].
  rewrite py_in_app in Hnot. by apply orb_false_iff in Hnot as [? _].
Qed.

(** One round of the loop. *)
Lemma get_new_results_loop_cons entry rest new_results s :
  get_new_results_loop (entry :: rest) new_results s =
  match entry !! "_id" with
  | None => (Raise (Exn KeyError "'_id'"), s)
  | Some mongo_id =>
      if py_in mongo_id (collected_results (self s))
      then get_new_results_loop rest new_results s
      else get_new_results_loop rest (new_results ++ [delete "_id" entry])
             {| self := set_collected_results
                          (collected_results (self s) ++ [mongo_id]) (self s);
                w := w s |}
  end.
Proof.
  simpl. destruct (entry !! "_id") as [mongo_id|]; [|done].
  unfold bind at 1, get. by destruct (py_in mongo_id _).
Qed.

(** What the loop does to the state and to its local list. *)
Lemma get_new_results_loop_spec entries new_results s :
  let r := get_new_results_loop entries new_results s in
  let seen := collected_results (self s) in
  w r.2 = w s
  ∧ mongo_process (self r.2) = mongo_process (self s)
  ∧ ∃ ext, collected_results (self r.2) = (seen ++ ext)%list
      ∧ extends_fresh seen ext
      ∧ match r.1 with
        | Return l =>
            l = (new_results ++ (delete "_id" <$> new_entries seen entries))%list
            ∧ ext = entry_ids (new_entries seen entries)
        | Raise _ => True
        end.
Proof.
  revert new_results s.
  induction entries as [|entry rest IH]; intros new_results s.
  { simpl. split; [done|]. split; [done|]. exists []. rewrite !app_nil_r.
    repeat split; constructor. }
  cbv zeta. rewrite get_new_results_loop_cons. simpl new_entries.
  destruct (entry !! "_id") as [mongo_id|] eqn:Hid.
  2:{ simpl. split; [done|]. split; [done|]. exists []. rewrite app_nil_r.
      repeat split; constructor. }
  destruct (py_in mongo_id (collected_results (self s))) eqn:Hin.
  { apply IH. }
  match goal with
  | |- context [get_new_results_loop rest ?a ?s'] =>
      specialize (IH a s'); set (r := get_new_results_loop rest a s') in *
  end.
  simpl in IH. destruct IH as (Hw & Hp & ext & Hc & Hext & Hr).
  split; [done|]. split; [done|]. exists (mongo_id :: ext). split.
  { rewrite Hc. by rewrite <- app_assoc. }
  split; [by apply extends_fresh_cons|].
  destruct r.1 as [l|]; [|done]. destruct Hr as [-> ->]. split.
  - rewrite fmap_cons. by rewrite <- app_assoc.
  - unfold entry_ids. simpl. by rewrite Hid.
Qed.

Lemma get_new_results_eq s :
  get_new_results s =
  match (check_db_status s).1 with
  | Return _ => get_new_results_loop (db_results (w s)) [] s
  | Raise e => (Raise e, s)
  end.
Proof.
  unfold get_new_results, bind at 1. rewrite (check_db_status_eq s).
  by destruct (check_db_status s).1.
Qed.

Lemma get_new_results_spec s :
  let r := get_new_results s in
  let seen := collected_results (self s) in
  w r.2 = w s
  ∧ ∃ ext, collected_results (self r.2) = (seen ++ ext)%list
      ∧ extends_fresh seen ext
      ∧ match r.1 with
        | Return l =>
            l = delete "_id" <$> new_entries seen (db_results (w s))
            ∧ ext = entry_ids (new_entries seen (db_results (w s)))
        | Raise _ => True
        end.
Proof.
  cbv zeta. rewrite get_new_results_eq.
  destruct (check_db_status s).1 as [[]|e].
  2:{ simpl. split; [done|]. exists []. rewrite app_nil_r.
      repeat split. constructor. }
  destruct (get_new_results_loop_spec (db_results (w s)) [] s)
    as (Hw & _ & ext & Hc & Hext & Hr).
  split; [done|]. by exists ext.
Qed.

Lemma delivered_ids s :
  ∃ ext, collected_results (self (get_new_results s).2)
           = (collected_results (self s) ++ ext)%list
      ∧ extends_fresh (collected_results (self s)) ext
      ∧ entry_ids (delivered s) `sublist_of` ext.
Proof.
  destruct (get_new_results_spec s) as (_ & ext & Hc & Hext & Hr).
  exists ext. split; [done|]. split; [done|]. unfold delivered.
  destruct (get_new_results s).1; [|apply sublist_nil_l].
  by destruct Hr as [_ ->].
Qed.

Lemma entry_ids_app l1 l2 :
  entry_ids (l1 ++ l2) = (entry_ids l1 ++ entry_ids l2)%list.
Proof. apply omap_app. Qed.

Lemma session_fresh ws db :
  ∃ fin, extends_fresh (collected_results db) fin
       ∧ entry_ids (concat (session db ws)) `sublist_of` fin.
Proof.
  revert db. induction ws as [|wd ws IH]; intros db; simpl.
  { exists []. split; [constructor|done]. }
  destruct (delivered_ids {| self := db; w := wd |}) as (ext & Hc & Hext & Hsub).
  destruct (IH (self (get_new_results {| self := db; w := wd |}).2))
    as (fin & Hfin & Hsub').
  simpl in Hc, Hext. rewrite Hc in Hfin.
  exists (ext ++ fin)%list. split; [by apply extends_fresh_app|].
  rewrite entry_ids_app. by apply sublist_app.
Qed.

Lemma delivered_has_ids s :
  length (entry_ids (delivered s)) = length (delivered s).
Proof.
  unfold delivered. destruct (get_new_results s).1; [|done].
  apply new_entries_fresh.
Qed.

Lemma session_has_ids ws db :
  length (entry_ids (concat (session db ws))) = length (concat (session db ws)).
Proof.
  revert db. induction ws as [|wd ws IH]; intros db; simpl; [done|].
  rewrite entry_ids_app, !length_app, delivered_has_ids. by rewrite IH.
Qed.

Lemma session_returns_delivered ws db :
  Forall2 (λ out picked,
             match out with
             | Return l => l = delete "_id" <$> picked
             | Raise _ => picked = []
             end)
          (session_returns db ws) (session db ws).
Proof.
  revert db. induction ws as [|wd ws IH]; intros db; simpl; constructor.
  - unfold delivered.
    destruct (get_new_results_spec {| self := db; w := wd |})
      as (_ & ext & _ & _ & Hr).
    destruct (get_new_results {| self := db; w := wd |}).1; [|done].
    by destruct Hr as [-> _].
  - apply IH.
Qed.

Lemma delivered_seen s :
  Forall (λ e : doc,
            ∃ i, e !! "_id" = Some i
                 ∧ py_in i (collected_results (self s)) = false
                 ∧ i ∈ collected_results (self (get_new_results s).2))
         (delivered s).
Proof.
  apply Forall_forall. intros e He. unfold delivered in He.
  destruct (get_new_results_spec s) as (_ & ext & Hc & _ & Hr).
  destruct (get_new_results s).1 as [l|]; [|by apply elem_of_nil in He].
  destruct Hr as [_ ->].
  destruct (new_entries_not_seen _ _ _ He) as (i & Hi & Hnot).
  exists i. split; [done|]. split; [done|]. rewrite Hc.
  apply elem_of_app. right. unfold entry_ids.
  apply list_elem_of_omap. eauto.
Qed.

(** C1.  Over the whole life of a [Database] object, whatever the results
    collection (and the rest of the world) holds at each [get_new_results]
    call: the records a call returns are stored entries without their
    [_id]; no [_id] is behind the returned records of two calls, nor twice
    behind those of one call; and each delivered entry has an [_id] that was
    not in [collected_results] when the call began and is in it when the
    call returns. *)
Theorem get_new_results_at_most_once (db : Database) (ws : list world) :
  Forall2 (λ out picked,
             match out with
             | Return l => l = delete "_id" <$> picked
             | Raise _ => picked = []
             end)
          (session_returns db ws) (session db ws)
  ∧ NoDup (entry_ids (concat (session db ws)))
  ∧ length (entry_ids (concat (session db ws)))
    = length (concat (session db ws))
  ∧ ∀ s, Forall (λ e : doc,
                   ∃ i, e !! "_id" = Some i
                        ∧ py_in i (collected_results (self s)) = false
                        ∧ i ∈ collected_results (self (get_new_results s).2))
                (delivered s).
Proof.
  split; [apply session_returns_delivered|].
  split; [|split; [apply session_has_ids|apply delivered_seen]].
  destruct (session_fresh ws db) as (fin & Hfin & Hsub).
  eapply extends_fresh_sublist; eauto.
Qed.

(** C10.  Each record that [get_new_results] returns is a stored entry from
    which the key [_id] has been removed: it has no [_id], and under every
    other key it has what the entry has; for an entry written by
    [send_metrics] these are exactly [parameters], [trial_id], [objective],
    [iteration] and [context]. *)
Theorem get_new_results_strips_id (s s' : ctl) (l : list doc) :
  get_new_results s = (Return l, s') →
  Forall (λ r : doc,
            r !! "_id" = None
            ∧ ∃ entry : doc,
                entry ∈ db_results (w s)
                ∧ is_Some (entry !! "_id")
                ∧ r = delete "_id" entry
                ∧ ∀ k, k ≠ "_id" → r !! k = entry !! k) l
  ∧ ∀ trial iteration objective context oid,
      delete "_id" (result_doc trial iteration objective context oid)
      = ({[ "parameters" := Trial.parameters trial;
            "trial_id" := Trial.id trial;
            "objective" := objective;
            "iteration" := iteration;
            "context" := context ]} : doc).
Proof.
  intros Hrun. split.
  - destruct (get_new_results_spec s) as (_ & ext & _ & _ & Hr).
    rewrite Hrun in Hr. simpl in Hr. destruct Hr as [-> _].
    apply Forall_forall. intros r Hr.
    apply list_elem_of_fmap in Hr as (entry & -> & He).
    split; [apply lookup_delete_eq|]. exists entry.
    destruct (new_entries_not_seen _ _ _ He) as (i & Hi & _).
    split; [|split; [eauto|split; [done|]]].
    + eapply elem_of_sublist; [exact He|apply new_entries_sublist].
    + intros k Hk. by apply lookup_delete_ne.
  - intros. unfold result_doc. rewrite delete_insert_eq.
    apply delete_id. by vm_compute.
Qed.

(** ** The store only grows *)

Global Instance grows_preorder : PreOrder grows.
Proof.
  split.
  - intros wd. by repeat split.
  - intros a b c (?&?&?) (?&?&?). repeat split; by etrans.
Qed.

(** Steps that stay within a preorder on states compose. *)
Section Steps.
Context {S : Type} (R : relation S) `{!PreOrder R}.

Lemma stays_ret {A} (a : A) : stays R (ret a).
Proof. intros s. simpl. reflexivity. Qed.

Lemma stays_raise {A} e : stays R (raise (A := A) e).
Proof. intros s. simpl. reflexivity. Qed.

Lemma stays_get : stays R get.
Proof. intros s. simpl. reflexivity. Qed.

Lemma stays_bind {A B} (c : M S A) (k : A → M S B) :
  stays R c → (∀ a, stays R (k a)) → stays R (bind c k).
Proof.
  intros Hc Hk s. unfold bind. specialize (Hc s).
  destruct (c s) as [[a|e] s1]; simpl in *; [|done].
  etrans; [exact Hc|apply Hk].
Qed.

Lemma stays_try_except {A} (c h : M S A) on :
  stays R c → stays R h → stays R (try_except c on h).
Proof.
  intros Hc Hh s. unfold try_except. specialize (Hc s).
  destruct (c s) as [[a|e] s1]; simpl in *; [done|].
  destruct (bool_decide (cls e = on)); [|done].
  etrans; [exact Hc|apply Hh].
Qed.

Lemma stays_for_each {A} (l : list A) (body : A → M S unit) :
  (∀ x, stays R (body x)) → stays R (for_each l body).
Proof.
  intros Hb. induction l as [|x l IH]; simpl;
    [apply stays_ret|apply stays_bind; auto].
Qed.

Lemma stays_modify (f : S → S) : (∀ s, R s (f s)) → stays R (modify f).
Proof. intros Hf s. apply Hf. Qed.
End Steps.

Global Instance grows_ctl_preorder : PreOrder grows_ctl.
Proof.
  split.
  - intros s. unfold grows_ctl. reflexivity.
  - intros a b c. unfold grows_ctl. by etrans.
Qed.

Lemma stays_in_world {A} (c : M world A) :
  stays grows c → stays grows_ctl (in_world c).
Proof.
  intros Hc s. unfold in_world, grows_ctl. specialize (Hc (w s)).
  by destruct (c (w s)).
Qed.

Lemma grows_take_oid wd : grows wd (take_oid wd).
Proof. by repeat split. Qed.

Lemma grows_add_sleep t wd : grows wd (add_sleep t wd).
Proof. by repeat split. Qed.

Lemma grows_append_doc c d wd : grows wd (append_doc c d wd).
Proof. destruct c; repeat split; simpl; try done; by apply prefix_app_r. Qed.

(** Apply one of the composition lemmas, at the preorder of the goal. *)
Tactic Notation "st" uconstr(l) :=
  first [apply (l grows) | apply (l grows_ctl)]; try exact _.

Section Grows.
Variable bson_error : doc → option exn.
Variable int_of_str : string → option Z.

Lemma stays_with_id d : stays grows (with_id d).
Proof.
  unfold with_id. destruct (d !! "_id"); [st stays_ret|].
  st stays_bind; [st stays_get|]. intros wd.
  st stays_bind; [|intros; st stays_ret].
  st stays_modify; apply grows_take_oid.
Qed.

Lemma stays_send_doc c d : stays grows (send_doc bson_error c d).
Proof.
  unfold send_doc. destruct (bson_error d); [st stays_raise|].
  st stays_bind; [|intros; st stays_ret].
  st stays_modify; apply grows_append_doc.
Qed.

Lemma stays_insert_one c d : stays grows (insert_one bson_error c d).
Proof.
  st stays_bind; [apply stays_with_id|intros; apply stays_send_doc].
Qed.

Lemma stays_check_db_status : stays grows_ctl check_db_status.
Proof. intros s. rewrite check_db_status_state. reflexivity. Qed.

Lemma stays_get_new_results : stays grows_ctl get_new_results.
Proof.
  intros s. unfold grows_ctl.
  destruct (get_new_results_spec s) as [-> _]. reflexivity.
Qed.

Lemma stays_enqueue_trial trial :
  stays grows_ctl (enqueue_trial bson_error trial).
Proof.
  st stays_bind; [apply stays_check_db_status|]. intros _.
  apply stays_in_world; st stays_bind; [apply stays_with_id|]. intros d.
  st stays_try_except.
  - st stays_bind; [apply stays_send_doc|intros; st stays_ret].
  - destruct (dict_get d "parameters"); [st stays_raise|].
    st stays_bind; [apply stays_insert_one|intros; st stays_ret].
Qed.

Lemma stays_add_for_stopping tid :
  stays grows_ctl (add_for_stopping bson_error tid).
Proof.
  st stays_bind; [apply stays_check_db_status|]. intros _.
  st stays_bind; [|intros; st stays_ret].
  apply stays_in_world, stays_insert_one.
Qed.

Lemma stays_start : stays grows_ctl start.
Proof.
  st stays_bind; [st stays_get|]. intros s.
  destruct (popen_error (w s)) as [e|];
    [destruct (bool_decide _); st stays_raise|].
  st stays_bind.
  { st stays_modify. intros ?. unfold grows_ctl. reflexivity. }
  intros _. st stays_bind; [|intros; apply stays_check_db_status].
  apply stays_in_world; st stays_modify; apply grows_add_sleep.
Qed.

Lemma stays_get_trial_loop n trial_id t :
  stays grows (get_trial_loop n trial_id t).
Proof.
  revert t. induction n as [|n IH]; intros t; simpl; [st stays_ret|].
  st stays_bind; [st stays_get|]. intros wd.
  destruct (List.filter _ _) as [|t' ?]; [st stays_raise|].
  destruct (dict_truthy t'); [st stays_ret|].
  st stays_bind; [|intros; apply IH].
  st stays_modify; apply grows_add_sleep.
Qed.

Lemma stays_get_trial id : stays grows (get_trial int_of_str id).
Proof.
  st stays_bind.
  - st stays_bind; [st stays_bind; [st stays_get|intros; st stays_ret]|].
    intros e. destruct (negb _); [st stays_raise|].
    st stays_bind; [st stays_bind; [st stays_get|intros; st stays_ret]|].
    intros e'. unfold py_int.
    destruct (py_or id e'); try st stays_ret; try st stays_raise.
    destruct (int_of_str s); [st stays_ret|st stays_raise].
  - intros trial_id. st stays_bind; [apply stays_get_trial_loop|].
    intros [t|]; [|st stays_raise].
    destruct (negb _); [st stays_raise|st stays_ret].
Qed.

Lemma stays_send_metrics trial iteration objective context :
  stays grows (send_metrics bson_error trial iteration objective context).
Proof.
  st stays_bind; [apply stays_insert_one|]. intros _.
  st stays_bind; [st stays_get|]. intros wd.
  st stays_for_each. intros entry.
  destruct (py_eq _ _); [st stays_raise|st stays_ret].
Qed.
End Grows.

(** ** Equations of the driver calls *)

Section Driver.
Variable bson_error : doc → option exn.

Lemma with_id_fresh (d : doc) wd :
  d !! "_id" = None →
  with_id d wd
  = (Return (<["_id" := VS (SObjectId (next_oid wd))]> d), take_oid wd).
Proof. intros Hd. unfold with_id. by rewrite Hd. Qed.

Lemma insert_one_fresh c (d : doc) wd :
  d !! "_id" = None →
  insert_one bson_error c d wd =
  let d' := <["_id" := VS (SObjectId (next_oid wd))]> d in
  match bson_error d' with
  | Some e => (Raise e, take_oid wd)
  | None => (Return (VS (SObjectId (next_oid wd))),
             append_doc c d' (take_oid wd))
  end.
Proof.
  intros Hd. unfold insert_one, bind at 1. rewrite (with_id_fresh d wd Hd).
  unfold send_doc. simpl. destruct (bson_error _); [done|].
  unfold bind, modify, ret, dict_get. by rewrite lookup_insert_eq.
Qed.

(** The scan of the stop requests in [send_metrics]. *)
Lemma stop_scan (tid : value) (entries : list doc) (wd : world) :
  for_each entries
    (λ entry : doc,
       if py_eq (dict_get entry "trial_id") tid
       then raise (Exn StopIteration "Trial listed for stopping.")
       else ret tt) wd
  = (if existsb (λ entry : doc, py_eq (dict_get entry "trial_id") tid) entries
     then Raise (Exn StopIteration "Trial listed for stopping.")
     else Return tt, wd).
Proof.
  induction entries as [|entry rest IH]; simpl; [done|].
  unfold bind at 1. destruct (py_eq (dict_get entry "trial_id") tid); [done|].
  simpl. exact IH.
Qed.

(** [send_metrics], when the driver encodes the record. *)
Lemma send_metrics_accepted trial iteration objective context wd :
  let d := result_doc trial iteration objective context (next_oid wd) in
  bson_error d = None →
  send_metrics bson_error trial iteration objective context wd
  = (if stop_requested (Trial.id trial) wd
     then Raise (Exn StopIteration "Trial listed for stopping.")
     else Return tt,
     append_doc results d (take_oid wd)).
Proof.
  intros d Hd. unfold send_metrics, bind at 1.
  rewrite insert_one_fresh by (by vm_compute). cbv zeta.
  fold (result_doc trial iteration objective context (next_oid wd)).
  fold d. rewrite Hd. unfold bind at 1, get. by rewrite stop_scan.
Qed.

(** [send_metrics], when the driver refuses the record. *)
Lemma send_metrics_refused trial iteration objective context wd e :
  bson_error (result_doc trial iteration objective context (next_oid wd))
  = Some e →
  send_metrics bson_error trial iteration objective context wd
  = (Raise e, take_oid wd).
Proof.
  intros Hd. unfold send_metrics, bind at 1.
  rewrite insert_one_fresh by (by vm_compute). cbv zeta.
  fold (result_doc trial iteration objective context (next_oid wd)).
  by rewrite Hd.
Qed.

Lemma stop_requested_iff tid wd :
  stop_requested tid wd = true
  ↔ ∃ entry : doc, entry ∈ db_stop wd
                   ∧ py_eq (dict_get entry "trial_id") tid = true.
Proof.
  unfold stop_requested. rewrite existsb_exists.
  split; intros (entry & He & Heq); exists entry;
    (split; [by apply list_elem_of_In|done]).
Qed.

(** [add_for_stopping], when it returns. *)
Lemma add_for_stopping_returns tid s s' :
  add_for_stopping bson_error tid s = (Return tt, s') →
  db_stop (w s')
  = (db_stop (w s) ++ [<["_id" := VS (SObjectId (next_oid (w s)))]>
                        ({[ "trial_id" := tid ]} : doc)])%list.
Proof.
  unfold add_for_stopping, bind at 1.
  destruct (check_db_status_cases s) as [->|[e ->]]; [|done].
  unfold bind at 1, in_world.
  rewrite insert_one_fresh by (by vm_compute). cbv zeta.
  destruct (bson_error _); [done|]. simpl. by intros [= <-].
Qed.
End Driver.

(** ** The worker's reports and the stop requests *)

Section Worker.
Variable bson_error : doc → option exn.

(** C3.  When the record of a [send_metrics] call is taken by the store,
    the call raises the cancellation signal exactly when some stop request
    carries the id of the trial, however many do, and returns normally when
    none does; hence once [add_for_stopping] has returned for that id, the
    call raises in every later state of the store. *)
Theorem send_metrics_cancellation trial iteration objective context wd :
  bson_error (result_doc trial iteration objective context (next_oid wd))
  = None →
  let r := (send_metrics bson_error trial iteration objective context wd).1 in
  let stop_found :=
    ∃ entry : doc, entry ∈ db_stop wd
                   ∧ py_eq (dict_get entry "trial_id") (Trial.id trial) = true in
  (r = Raise cancellation ↔ stop_found)
  ∧ (¬ stop_found → r = Return tt)
  ∧ (∀ s s', add_for_stopping bson_error (Trial.id trial) s = (Return tt, s') →
             grows (w s') wd → r = Raise cancellation).
Proof.
  intros Hd r stop_found. subst r.
  rewrite (send_metrics_accepted bson_error _ _ _ _ _ Hd). simpl.
  assert (Hiff : stop_requested (Trial.id trial) wd = true ↔ stop_found)
    by apply stop_requested_iff.
  split; [|split].
  - rewrite <- Hiff. by destruct (stop_requested _ _).
  - rewrite <- Hiff. by destruct (stop_requested _ _).
  - intros s s' Hadd (_ & _ & [k Hk]).
    assert (stop_found) as Hfound%Hiff; [|by rewrite Hfound].
    eexists. split.
    + rewrite Hk, (add_for_stopping_returns _ _ _ _ Hadd).
      apply elem_of_app. left. apply elem_of_app. right.
      apply list_elem_of_singleton. reflexivity.
    + unfold dict_get. rewrite lookup_insert_ne by done.
      rewrite lookup_singleton_eq. apply py_eq_refl.
Qed.

(** C7.  A [send_metrics] call never changes or removes a stored document;
    when its record is taken by the store, the results collection is the
    former one followed by exactly that record, which has the iteration,
    the objective and the context of the call, and the id and parameters of
    the trial; a second call with the same iteration adds a second
    record. *)
Theorem send_metrics_appends trial iteration objective context wd :
  let d := result_doc trial iteration objective context (next_oid wd) in
  let wd' := (send_metrics bson_error trial iteration objective context wd).2 in
  grows wd wd'
  ∧ (bson_error d = None →
     db_results wd' = (db_results wd ++ [d])%list
     ∧ db_trials wd' = db_trials wd
     ∧ db_stop wd' = db_stop wd
     ∧ d !! "iteration" = Some iteration
     ∧ d !! "objective" = Some objective
     ∧ d !! "context" = Some context
     ∧ d !! "trial_id" = Some (Trial.id trial)
     ∧ d !! "parameters" = Some (Trial.parameters trial)
     ∧ ∀ objective2 context2,
         let d2 := result_doc trial iteration objective2 context2 (next_oid wd') in
         bson_error d2 = None →
         db_results
           (send_metrics bson_error trial iteration objective2 context2 wd').2
         = (db_results wd ++ [d; d2])%list
         ∧ d ≠ d2).
Proof.
  intros d wd'. split; [apply stays_send_metrics|]. intros Hd. subst wd'.
  rewrite (send_metrics_accepted bson_error _ _ _ _ _ Hd). cbn [snd].
  repeat (split; [done|]).
  intros objective2 context2 Hd2.
  rewrite (send_metrics_accepted bson_error _ _ _ _ _ Hd2).
  simpl. split; [by rewrite <- app_assoc|].
  intros Heq.
  assert (d !! "_id"
          = result_doc trial iteration objective2 context2
              (N.succ (next_oid wd)) !! "_id") as Hid by by rewrite <- Heq.
  unfold d, result_doc in Hid. rewrite !lookup_insert_eq in Hid.
  injection Hid. lia.
Qed.
End Worker.

(** ** The controller: liveness first *)

Section Controller.
Variable bson_error : doc → option exn.

(** C8.  When the liveness check fails, each of [get_new_results],
    [enqueue_trial] and [add_for_stopping] fails with the same exception
    and leaves the whole state as it was: no document is inserted and
    [collected_results] is unchanged. *)
Theorem liveness_failure_propagates s e :
  (check_db_status s).1 = Raise e →
  get_new_results s = (Raise e, s)
  ∧ (∀ trial, enqueue_trial bson_error trial s = (Raise e, s))
  ∧ (∀ trial_id, add_for_stopping bson_error trial_id s = (Raise e, s)).
Proof.
  intros He. pose proof (check_db_status_eq s) as Hc. rewrite He in Hc.
  split; [|split]; intros;
    unfold get_new_results, enqueue_trial, add_for_stopping, bind at 1;
    by rewrite Hc.
Qed.

(** What the check answers on a started [Database]: it raises exactly for
    a return code other than 0. *)
Lemma check_db_status_started s p :
  mongo_process (self s) = Some p →
  check_db_status s =
  match poll (w s) with
  | Some n =>
      if (n =? 0)%Z then (Return tt, s)
      else (Raise (Exn EnvironmentError
                     ("Database exited with code " +:+ pretty n)), s)
  | None => (Return tt, s)
  end.
Proof.
  intros Hp. unfold check_db_status, bind, get. rewrite Hp.
  destruct (poll (w s)) as [n|]; [|done]. by destruct (n =? 0)%Z.
Qed.

(** C4.  A [mongod] that has ended with return code 0 passes the check:
    [check_db_status] returns normally although the process has
    terminated. *)
Theorem check_db_status_exit_code_0 :
  check_db_status {| self := running "/tmp/db" 27010;
                     w := with_poll (Some 0) empty_world |}
  = (Return tt, {| self := running "/tmp/db" 27010;
                   w := with_poll (Some 0) empty_world |}).
Proof. reflexivity. Qed.

(** C6.  [Database(db_dir, port, reinstantiated=True)] never gets to read
    the results: [get_new_results] starts with [check_db_status], and
    [self.mongo_process] is still [None] in [__init__]. *)
Theorem Database_init_reinstantiated_raises db_dir p wd :
  Database_init db_dir p true wd
  = (Raise (Exn AttributeError "'NoneType' object has no attribute 'poll'"),
     wd).
Proof. reflexivity. Qed.
End Controller.

(** ** Enqueueing a trial *)

Lemma new_params_fmap parameters : new_params parameters = to_int <$> parameters.
Proof.
  unfold new_params.
  apply (map_fold_weak_ind (λ r m, r = to_int <$> m)).
  - by rewrite fmap_empty.
  - intros k v m r _ ->. by rewrite fmap_insert.
Qed.

Lemma to_int_other v : (∀ n, v ≠ SNumpy np_int64 n) → to_int v = v.
Proof. destruct v as [| | | | |[]|]; try done. intros H. by destruct (H n). Qed.

Section Enqueue.
Variable bson_error : doc → option exn.

(** [enqueue_trial] past the liveness check. *)
Lemma enqueue_trial_eq trial s :
  (check_db_status s).1 = Return tt →
  enqueue_trial bson_error trial s =
  let d := trial_doc trial (next_oid (w s)) in
  let wd := take_oid (w s) in
  match bson_error d with
  | None => (Return tt, {| self := self s; w := append_doc trials d wd |})
  | Some e =>
      if bool_decide (cls e = InvalidDocument) then
        match Trial.parameters trial with
        | VDict parameters =>
            let d' := <["parameters" := VDict (new_params parameters)]> d in
            match bson_error d' with
            | None =>
                (Return tt, {| self := self s; w := append_doc trials d' wd |})
            | Some e' => (Raise e', {| self := self s; w := wd |})
            end
        | VS x => (Raise (no_items x), {| self := self s; w := wd |})
        end
      else (Raise e, {| self := self s; w := wd |})
  end.
Proof.
  intros Hc. pose proof (check_db_status_eq s) as Hs. rewrite Hc in Hs.
  unfold enqueue_trial, bind at 1. rewrite Hs. unfold in_world, bind at 1.
  rewrite with_id_fresh by (by vm_compute).
  fold (trial_doc trial (next_oid (w s))). cbv zeta.
  set (d := trial_doc trial (next_oid (w s))).
  unfold try_except, bind at 1, send_doc.
  destruct (bson_error d) as [e|] eqn:Hd; [|done]. simpl.
  destruct (bool_decide (cls e = InvalidDocument)); [|done].
  assert (dict_get d "parameters" = Trial.parameters trial) as ->.
  { unfold dict_get, d, trial_doc. rewrite lookup_insert_ne by done.
    rewrite lookup_insert_ne by done. by rewrite lookup_singleton_eq. }
  destruct (Trial.parameters trial) as [|parameters]; [done|].
  unfold bind at 1, insert_one, bind at 1, with_id.
  assert ((<["parameters" := VDict (new_params parameters)]> d) !! "_id"
          = Some (VS (SObjectId (next_oid (w s))))) as ->.
  { unfold d, trial_doc. rewrite lookup_insert_ne by done.
    by rewrite lookup_insert_eq. }
  unfold ret at 1, send_doc. cbv iota beta.
  destruct (bson_error (<[_ := _]> d)); [done|]. by unfold bind, modify, ret.
Qed.

(** C5, as the code has it.  When the first insertion is refused with
    [InvalidDocument], the trial is inserted once more, with each parameter
    of class [numpy.int64] replaced by the [int] of the same value and every
    other parameter as it was, whatever its class; the outcome of that one
    further insertion is the outcome of [enqueue_trial]. *)
Theorem enqueue_trial_retries_once trial parameters s e :
  (check_db_status s).1 = Return tt →
  Trial.parameters trial = VDict parameters →
  bson_error (trial_doc trial (next_oid (w s))) = Some e →
  cls e = InvalidDocument →
  let d' := <["parameters" := VDict (new_params parameters)]>
              (trial_doc trial (next_oid (w s))) in
  (∀ k, new_params parameters !! k = to_int <$> parameters !! k)
  ∧ (∀ n, to_int (SNumpy np_int64 n) = SInt n)
  ∧ (∀ v, (∀ n, v ≠ SNumpy np_int64 n) → to_int v = v)
  ∧ enqueue_trial bson_error trial s =
    match bson_error d' with
    | None =>
        (Return tt,
         {| self := self s; w := append_doc trials d' (take_oid (w s)) |})
    | Some e' => (Raise e', {| self := self s; w := take_oid (w s) |})
    end.
Proof.
  intros Hc Hp Hd He d'. split; [|split; [done|split; [apply to_int_other|]]].
  { intros k. by rewrite new_params_fmap, lookup_fmap. }
  rewrite (enqueue_trial_eq trial s Hc). cbv zeta. rewrite Hd, Hp.
  by rewrite bool_decide_eq_true_2.
Qed.

(** A trial that the store takes at once is stored as it is. *)
Lemma enqueue_trial_accepted trial s :
  (check_db_status s).1 = Return tt →
  bson_error (trial_doc trial (next_oid (w s))) = None →
  enqueue_trial bson_error trial s
  = (Return tt,
     {| self := self s;
        w := append_doc trials (trial_doc trial (next_oid (w s)))
               (take_oid (w s)) |}).
Proof.
  intros Hc Hd. rewrite (enqueue_trial_eq trial s Hc). cbv zeta. by rewrite Hd.
Qed.
End Enqueue.

(** ** Resolving the trial of a worker *)

Section Resolve.
Variable int_of_str : string → option Z.

Lemma filter_head_true {A} (f : A → bool) l x rest :
  List.filter f l = x :: rest → f x = true.
Proof.
  intros Hf. assert (In x (List.filter f l)) as Hin by (rewrite Hf; by left).
  by apply filter_In in Hin as [_ ?].
Qed.

Lemma matches_trial_id_truthy n (d : doc) :
  matches_trial_id n d = true → dict_truthy d = true.
Proof.
  unfold matches_trial_id, dict_truthy. intros Hm.
  apply negb_true_iff, bool_decide_eq_false. intros ->.
  by rewrite lookup_empty in Hm.
Qed.

(** No match: [next(g)] ends the call in the first round. *)
Lemma get_trial_poll_no_match trial_id wd :
  List.filter (matches_trial_id trial_id) (db_trials wd) = [] →
  get_trial_poll trial_id wd = (Raise (Exn StopIteration ""), wd).
Proof.
  intros Hf. unfold get_trial_poll, bind at 1. simpl.
  unfold bind at 1, get. simpl. by rewrite Hf.
Qed.

(** A match: the first one is returned, in the first round. *)
Lemma get_trial_poll_match trial_id wd t rest :
  List.filter (matches_trial_id trial_id) (db_trials wd) = t :: rest →
  get_trial_poll trial_id wd
  = (Return (Trial.make (dict_get t "trial_id") (dict_get t "parameters")),
     wd).
Proof.
  intros Hf. unfold get_trial_poll, bind at 1. simpl.
  unfold bind at 1, get. simpl. rewrite Hf.
  pose proof (matches_trial_id_truthy _ _ (filter_head_true _ _ _ _ Hf)) as Ht.
  rewrite Ht. simpl. by rewrite Ht.
Qed.

(** C9.  With a (non-zero) integer passed as [id], [get_trial] looks for the
    trial of that id, whatever the environment holds; with no [id], it
    looks for the trial named by [SHERPA_TRIAL_ID]; with neither, it fails
    at once, on the [assert], and the world is as before. *)
Theorem get_trial_id_source wd :
  (∀ i, i ≠ 0 → get_trial int_of_str (SInt i) wd = get_trial_poll i wd)
  ∧ (∀ s n, environ wd !! "SHERPA_TRIAL_ID" = Some s → s ≠ "" →
            int_of_str s = Some n →
            get_trial int_of_str SNone wd = get_trial_poll n wd)
  ∧ (environ wd !! "SHERPA_TRIAL_ID" = None →
     get_trial int_of_str SNone wd
     = (Raise (Exn AssertionError assert_message), wd)).
Proof.
  split; [|split].
  - intros i Hi. unfold get_trial, bind at 1, get_trial_id, bind at 1.
    unfold environ_get, bind at 1, get, ret, py_or. simpl.
    apply Z.eqb_neq in Hi. rewrite Hi. simpl.
    unfold bind at 1. simpl. by rewrite Hi.
  - intros s n Hs Hne Hn. unfold get_trial, bind at 1, get_trial_id, bind at 1.
    unfold environ_get, bind at 1, get, ret, py_or. simpl. rewrite Hs. simpl.
    rewrite bool_decide_eq_false_2 by done. simpl.
    unfold bind at 1. simpl. rewrite Hs. simpl. by rewrite Hn.
  - intros Hs. unfold get_trial, bind at 1, get_trial_id, bind at 1.
    unfold environ_get, bind at 1, get, ret, py_or. simpl. by rewrite Hs.
Qed.
End Resolve.

(** C2.  For a trial id without a trial request, [get_trial] stops in the
    first round of its loop with the [StopIteration] of [next(g)]: no
    second query, no sleep, and no [RuntimeError]. *)
Theorem get_trial_unknown_id :
  get_trial decimal (SInt 999) empty_world
  = (Raise (Exn StopIteration ""), empty_world).
Proof. reflexivity. Qed.

(** * The properties at concrete inputs *)

(** Scenario 2 of the specification: one report, two polls. *)
Example first_poll_then_nothing :
  session_returns (running "/tmp/db" 27010) [reported_world; reported_world]
  = [Return [delete "_id" report_1]; Return []].
Proof. vm_compute. reflexivity. Qed.

Example second_report_alone :
  session_returns (running "/tmp/db" 27010)
    [reported_world; reported_twice_world]
  = [Return [delete "_id" report_1]; Return [delete "_id" report_2]].
Proof. vm_compute. reflexivity. Qed.

Lemma send_metrics_cancellation_witness :
  add_for_stopping rejects_numpy (Trial.id trial_1) started
  = (Return tt, listed)
  ∧ rejects_numpy
      (result_doc trial_1 (SInt 2) (SFloat 1 (-2)) (VDict ∅)
         (next_oid (w listed))) = None
  ∧ (send_metrics rejects_numpy trial_1 (SInt 2) (SFloat 1 (-2)) (VDict ∅)
       (w listed)).1 = Raise cancellation.
Proof.
  assert (add_for_stopping rejects_numpy (Trial.id trial_1) started
          = (Return tt, listed)) as Hadd by (vm_compute; reflexivity).
  assert (rejects_numpy
            (result_doc trial_1 (SInt 2) (SFloat 1 (-2)) (VDict ∅)
               (next_oid (w listed))) = None) as Hd
    by (vm_compute; reflexivity).
  split; [exact Hadd|]. split; [exact Hd|].
  destruct (send_metrics_cancellation rejects_numpy trial_1 (SInt 2)
              (SFloat 1 (-2)) (VDict ∅) (w listed) Hd) as (_ & _ & H).
  apply (H started listed Hadd). reflexivity.
Defined.

(** C3 as it is stated fails: after [add_for_stopping] for trial 1, a
    [send_metrics] call for trial 1 whose record the store refuses (its
    objective is a [numpy.int64]) ends with the driver's [InvalidDocument]
    and not with the cancellation signal, although a stop request carries
    the id of the trial. *)
Lemma send_metrics_refused_not_cancelled :
  add_for_stopping rejects_numpy (Trial.id trial_1) started
  = (Return tt, listed)
  ∧ stop_requested (Trial.id trial_1) (w listed) = true
  ∧ (∃ e, (send_metrics rejects_numpy trial_1 (SInt 1) (SNumpy np_int64 1)
             (VDict ∅) (w listed)).1 = Raise e
          ∧ cls e = InvalidDocument)
  ∧ ¬ cancels_exactly_when_listed
        (send_metrics rejects_numpy trial_1 (SInt 1) (SNumpy np_int64 1)
           (VDict ∅) (w listed)).1
        (Trial.id trial_1) (w listed).
Proof.
  assert (stop_requested (Trial.id trial_1) (w listed) = true) as Hs
    by (vm_compute; reflexivity).
  assert ((send_metrics rejects_numpy trial_1 (SInt 1) (SNumpy np_int64 1)
             (VDict ∅) (w listed)).1
          = Raise (Exn InvalidDocument "cannot encode object")) as Hr
    by (vm_compute; reflexivity).
  split; [vm_compute; reflexivity|]. split; [exact Hs|]. split.
  { exists (Exn InvalidDocument "cannot encode object").
    split; [exact Hr|reflexivity]. }
  intros [Hiff _]. apply Hiff in Hs. rewrite Hr in Hs. discriminate Hs.
Qed.

Lemma send_metrics_appends_witness :
  rejects_numpy
    (result_doc trial_1 (SInt 1) (SFloat 1 (-1)) (VDict ∅)
       (next_oid empty_world)) = None
  ∧ db_results
      (send_metrics rejects_numpy trial_1 (SInt 1) (SFloat 1 (-1)) (VDict ∅)
         empty_world).2
    = (db_results empty_world
         ++ [result_doc trial_1 (SInt 1) (SFloat 1 (-1)) (VDict ∅)
               (next_oid empty_world)])%list.
Proof.
  split; [vm_compute; reflexivity|].
  destruct (send_metrics_appends rejects_numpy trial_1 (SInt 1)
              (SFloat 1 (-1)) (VDict ∅) empty_world) as [_ H].
  destruct H as [H _]; [vm_compute; reflexivity|exact H].
Defined.

(** C7 as it is stated fails: a [send_metrics] call whose record the store
    refuses (its objective is a [numpy.int64]) adds no record. *)
Lemma send_metrics_refused_not_appended :
  db_results
    (send_metrics rejects_numpy trial_1 (SInt 1) (SNumpy np_int64 1) (VDict ∅)
       empty_world).2 = db_results empty_world
  ∧ ¬ appends_one_record empty_world
        (send_metrics rejects_numpy trial_1 (SInt 1) (SNumpy np_int64 1)
           (VDict ∅) empty_world).2
        (VS (SInt 1)) (VS (SNumpy np_int64 1)) (VDict ∅).
Proof.
  assert (db_results
            (send_metrics rejects_numpy trial_1 (SInt 1) (SNumpy np_int64 1)
               (VDict ∅) empty_world).2 = db_results empty_world) as Hr
    by (vm_compute; reflexivity).
  split; [exact Hr|]. intros (d & Hd & _). rewrite Hr in Hd.
  simpl in Hd. discriminate Hd.
Qed.

Lemma liveness_failure_propagates_witness :
  (check_db_status crashed).1
  = Raise (Exn EnvironmentError "Database exited with code 1")
  ∧ get_new_results crashed
    = (Raise (Exn EnvironmentError "Database exited with code 1"), crashed)
  ∧ enqueue_trial rejects_numpy trial_1 crashed
    = (Raise (Exn EnvironmentError "Database exited with code 1"), crashed)
  ∧ add_for_stopping rejects_numpy (SInt 1) crashed
    = (Raise (Exn EnvironmentError "Database exited with code 1"), crashed).
Proof.
  split; [vm_compute; reflexivity|].
  destruct (liveness_failure_propagates rejects_numpy crashed
              (Exn EnvironmentError "Database exited with code 1"))
    as (H1 & H2 & H3); [vm_compute; reflexivity|].
  split; [exact H1|]. split; [apply H2|apply H3].
Defined.

Lemma get_new_results_strips_id_witness :
  get_new_results {| self := running "/tmp/db" 27010; w := reported_world |}
  = (Return [delete "_id" report_1],
     {| self := set_collected_results [VS (SObjectId 0)]
                  (running "/tmp/db" 27010);
        w := reported_world |})
  ∧ Forall (λ r : doc, r !! "_id" = None) [delete "_id" report_1].
Proof.
  assert (get_new_results
            {| self := running "/tmp/db" 27010; w := reported_world |}
          = (Return [delete "_id" report_1],
             {| self := set_collected_results [VS (SObjectId 0)]
                          (running "/tmp/db" 27010);
                w := reported_world |})) as Hrun
    by (vm_compute; reflexivity).
  split; [exact Hrun|].
  destruct (get_new_results_strips_id _ _ _ Hrun) as [Hall _].
  eapply Forall_impl; [exact Hall|]. intros r [Hr _]. exact Hr.
Defined.

Lemma enqueue_trial_retries_once_witness :
  (check_db_status started).1 = Return tt
  ∧ rejects_numpy (trial_doc trial_int64 0)
    = Some (Exn InvalidDocument "cannot encode object")
  ∧ enqueue_trial rejects_numpy trial_int64 started
    = (Return tt,
       {| self := self started;
          w := append_doc trials (trial_doc trial_int 0)
                 (take_oid empty_world) |}).
Proof.
  split; [vm_compute; reflexivity|]. split; [vm_compute; reflexivity|].
  destruct (enqueue_trial_retries_once rejects_numpy trial_int64
              {[ "batch_size" := SNumpy np_int64 32 ]} started
              (Exn InvalidDocument "cannot encode object"))
    as (_ & _ & _ & ->); try (vm_compute; reflexivity).
Defined.

(** C5 as it is stated fails: a [numpy.int32] parameter makes the first
    insertion fail, is not replaced, and the trial is not enqueued. *)
Lemma enqueue_trial_int32_not_normalized :
  rejects_numpy (trial_doc trial_int32 0)
  = Some (Exn InvalidDocument "cannot encode object")
  ∧ enqueue_trial rejects_numpy trial_int32 started
    = (Raise (Exn InvalidDocument "cannot encode object"),
       {| self := self started; w := take_oid empty_world |})
  ∧ ¬ normalizes_every_unsupported (λ x, negb (is_numpy x))
        {[ "batch_size" := SNumpy np_int32 32 ]}.
Proof.
  split; [vm_compute; reflexivity|]. split; [vm_compute; reflexivity|].
  intros H.
  destruct (H "batch_size" (SNumpy np_int32 32)) as (v' & Hv' & Hrep & _);
    [vm_compute; reflexivity|reflexivity|].
  vm_compute in Hv'. injection Hv' as <-. discriminate Hrep.
Qed.

Lemma get_trial_id_source_witness :
  get_trial decimal (SInt 1) worker_world = get_trial_poll 1 worker_world
  ∧ get_trial decimal SNone worker_world = get_trial_poll 7 worker_world
  ∧ get_trial decimal SNone empty_world
    = (Raise (Exn AssertionError assert_message), empty_world).
Proof.
  destruct (get_trial_id_source decimal worker_world) as (H1 & H2 & _).
  destruct (get_trial_id_source decimal empty_world) as (_ & _ & H3).
  split; [apply H1; lia|]. split; [|apply H3; vm_compute; reflexivity].
  apply (H2 "7"); [vm_compute; reflexivity|discriminate|reflexivity].
Defined.

(** * Further properties of the two classes *)

(** ** More on [get_new_results] *)

Lemma py_in_sublist x l1 l2 :
  l1 `sublist_of` l2 → py_in x l2 = false → py_in x l1 = false.
Proof.
  intros Hs Hx. destruct (py_in x l1) eqn:H1; [|done].
  unfold py_in in *. apply existsb_exists in H1 as (y & Hy & Hxy).
  rewrite <- Hx. symmetry. apply existsb_exists. exists y. split; [|done].
  apply list_elem_of_In. eapply elem_of_sublist; [|exact Hs].
  by apply list_elem_of_In.
Qed.

Lemma check_db_status_congr s s' :
  mongo_process (self s) = mongo_process (self s') →
  poll (w s) = poll (w s') →
  (check_db_status s).1 = (check_db_status s').1.
Proof.
  intros Hp Hq. unfold check_db_status, bind, get. simpl.
  rewrite <- Hp, <- Hq. destruct (mongo_process (self s)); [|done].
  destruct (poll (w s)) as [n|]; [|done]. by destruct (negb (n =? 0)%Z).
Qed.

(** The loop raises only for an entry without [_id]. *)
Lemma get_new_results_loop_returns entries new_results s :
  has_ids entries →
  ∃ l, (get_new_results_loop entries new_results s).1 = Return l.
Proof.
  intros Hids. revert new_results s.
  induction Hids as [|entry rest [i Hi] _ IH]; intros new_results s.
  { by exists new_results. }
  rewrite get_new_results_loop_cons, Hi.
  destruct (py_in i (collected_results (self s))); apply IH.
Qed.

Lemma get_new_results_loop_has_ids entries new_results s l :
  (get_new_results_loop entries new_results s).1 = Return l → has_ids entries.
Proof.
  revert new_results s.
  induction entries as [|entry rest IH]; intros new_results s; [constructor|].
  rewrite get_new_results_loop_cons.
  destruct (entry !! "_id") as [i|] eqn:Hi; [|done].
  intros Hr. constructor; [by eexists|].
  destruct (py_in i (collected_results (self s))); eapply IH, Hr.
Qed.

(** When every entry is already seen, the loop changes nothing. *)
Lemma get_new_results_loop_all_seen entries new_results s :
  Forall (λ e : doc, ∃ i, e !! "_id" = Some i
                          ∧ py_in i (collected_results (self s)) = true)
         entries →
  get_new_results_loop entries new_results s = (Return new_results, s).
Proof.
  induction 1 as [|entry rest (i & Hi & Hin) _ IH]; [done|].
  by rewrite get_new_results_loop_cons, Hi, Hin.
Qed.

Lemma snoc_app {A} (l : list A) x k : (l ++ x :: k = (l ++ [x]) ++ k)%list.
Proof. by rewrite <- app_assoc. Qed.

Lemma entry_ids_cons (e : doc) i l :
  e !! "_id" = Some i → entry_ids (e :: l) = i :: entry_ids l.
Proof. intros Hi. unfold entry_ids. simpl. by rewrite Hi. Qed.

(** After a scan, the id of every scanned entry is among the ids seen. *)
Lemma new_entries_covers seen entries :
  has_ids entries →
  Forall (λ e : doc,
            ∃ i, e !! "_id" = Some i
                 ∧ py_in i (seen ++ entry_ids (new_entries seen entries))
                   = true)
         entries.
Proof.
  intros Hids. revert seen.
  induction Hids as [|entry rest [i Hi] _ IH]; intros seen; [constructor|].
  simpl. rewrite Hi. destruct (py_in i seen) eqn:Hin.
  - constructor; [|apply IH]. exists i. split; [done|].
    by rewrite py_in_app, Hin.
  - rewrite (entry_ids_cons _ _ _ Hi), (snoc_app seen i (entry_ids _)).
    constructor; [|apply IH]. exists i. split; [done|].
    rewrite py_in_app. apply orb_true_iff. left.
    apply py_in_elem_of, elem_of_app. right. by apply list_elem_of_singleton.
Qed.

Lemma new_entries_app seen l1 l2 :
  has_ids l1 →
  new_entries seen (l1 ++ l2)
  = (new_entries seen l1
       ++ new_entries (seen ++ entry_ids (new_entries seen l1)) l2)%list.
Proof.
  intros Hids. revert seen.
  induction Hids as [|entry rest [i Hi] _ IH]; intros seen.
  { simpl. by rewrite app_nil_r. }
  simpl. rewrite Hi. destruct (py_in i seen); [apply IH|].
  rewrite IH, (entry_ids_cons _ _ _ Hi).
  by rewrite (snoc_app seen i (entry_ids _)).
Qed.

(** X1.  A second [get_new_results] call right after one that returned, on
    the same store, returns the empty list and changes nothing. *)
Theorem get_new_results_twice (s s' : ctl) (l : list doc) :
  get_new_results s = (Return l, s') →
  get_new_results s' = (Return [], s').
Proof.
  intros Hrun. pose proof Hrun as Hrun'. rewrite get_new_results_eq in Hrun.
  destruct (check_db_status s).1 as [[]|e] eqn:Hc; [|done].
  pose proof (get_new_results_loop_spec (db_results (w s)) [] s) as Hspec.
  cbv zeta in Hspec. rewrite Hrun in Hspec. simpl in Hspec.
  destruct Hspec as (Hw & Hp & ext & Hcol & _ & _ & ->).
  assert (has_ids (db_results (w s))) as Hids.
  { eapply get_new_results_loop_has_ids. by rewrite Hrun. }
  rewrite get_new_results_eq.
  rewrite <- (check_db_status_congr s s') by (by rewrite ?Hp, ?Hw).
  rewrite Hc, Hw. apply get_new_results_loop_all_seen. rewrite Hcol.
  by apply new_entries_covers.
Qed.

(** X2.  The records returned keep the order of the store: they are a
    sublist of the stored results without their [_id]. *)
Theorem get_new_results_in_store_order (s s' : ctl) (l : list doc) :
  get_new_results s = (Return l, s') →
  l `sublist_of` (delete "_id" <$> db_results (w s)).
Proof.
  intros Hrun. destruct (get_new_results_spec s) as (_ & ext & _ & _ & Hr).
  rewrite Hrun in Hr. simpl in Hr. destruct Hr as [-> _].
  apply fmap_sublist, new_entries_sublist.
Qed.

Lemma get_new_results_loop_missing_id before entry after new_results s :
  has_ids before →
  entry !! "_id" = None →
  let r := get_new_results_loop (before ++ entry :: after) new_results s in
  r.1 = Raise (Exn KeyError "'_id'")
  ∧ collected_results (self r.2)
    = (collected_results (self s)
         ++ entry_ids (new_entries (collected_results (self s)) before))%list
  ∧ w r.2 = w s.
Proof.
  intros Hids Hentry. cbv zeta. revert new_results s.
  induction Hids as [|e rest [i Hi] _ IH]; intros new_results s.
  { simpl. rewrite Hentry. simpl. by rewrite app_nil_r. }
  rewrite <- app_comm_cons, get_new_results_loop_cons, Hi. simpl new_entries.
  rewrite Hi. destruct (py_in i (collected_results (self s))) eqn:Hin.
  { apply IH. }
  match goal with
  | |- context [get_new_results_loop _ ?a ?s'] =>
      destruct (IH a s') as (H1 & H2 & H3)
  end.
  split; [done|]. split; [|done].
  rewrite H2, (entry_ids_cons _ _ _ Hi), (snoc_app _ i (entry_ids _)). done.
Qed.

(** X3.  A stored result without [_id] makes [get_new_results] raise
    [KeyError]; the entries scanned before it are then marked as collected
    although no record was returned. *)
Theorem get_new_results_missing_id (s : ctl) (before after : list doc)
  (entry : doc) :
  (check_db_status s).1 = Return tt →
  db_results (w s) = (before ++ entry :: after)%list →
  has_ids before →
  entry !! "_id" = None →
  let r := get_new_results s in
  r.1 = Raise (Exn KeyError "'_id'")
  ∧ collected_results (self r.2)
    = (collected_results (self s)
         ++ entry_ids (new_entries (collected_results (self s)) before))%list
  ∧ w r.2 = w s.
Proof.
  intros Hc Hres Hids Hentry. cbv zeta. rewrite get_new_results_eq, Hc, Hres.
  by apply get_new_results_loop_missing_id.
Qed.

Lemma entry_ids_sublist l1 l2 :
  l1 `sublist_of` l2 → entry_ids l1 `sublist_of` entry_ids l2.
Proof.
  induction 1 as [|e l1 l2 _ IH|e l1 l2 _ IH]; [done| |];
    unfold entry_ids in *; simpl; destruct (e !! "_id"); simpl;
    try done; by constructor.
Qed.

Lemma delete_id_result_doc trial iteration objective context oid :
  delete "_id" (result_doc trial iteration objective context oid)
  = result_record trial iteration objective context.
Proof.
  unfold result_doc. rewrite delete_insert_eq. apply delete_id. by vm_compute.
Qed.

Section RoundTrip.
Variable bson_error : doc → option exn.

(** X4.  A report reaches the controller: when the store takes the record
    of a [send_metrics] call under an [_id] that the controller has not
    collected and no stored result carries, the next [get_new_results]
    returns what it would have returned before the report, followed by the
    record with exactly the five fields of the report. *)
Theorem report_is_delivered trial iteration objective context (s : ctl) :
  (check_db_status s).1 = Return tt →
  has_ids (db_results (w s)) →
  py_in (VS (SObjectId (next_oid (w s))))
    (collected_results (self s) ++ entry_ids (db_results (w s))) = false →
  bson_error (result_doc trial iteration objective context (next_oid (w s)))
  = None →
  let wd' :=
    (send_metrics bson_error trial iteration objective context (w s)).2 in
  ∃ l0, (get_new_results s).1 = Return l0
        ∧ (get_new_results (in_state s wd')).1
          = Return (l0 ++ [result_record trial iteration objective context])%list.
Proof.
  intros Hc Hids Hfresh Hd wd'. subst wd'.
  rewrite (send_metrics_accepted bson_error _ _ _ _ _ Hd). cbn [snd].
  set (d := result_doc trial iteration objective context (next_oid (w s))).
  set (seen := collected_results (self s)).
  exists (delete "_id" <$> new_entries seen (db_results (w s))). split.
  { destruct (get_new_results_spec s) as (_ & ext & _ & _ & Hr).
    rewrite get_new_results_eq, Hc in Hr |- *.
    destruct (get_new_results_loop_returns (db_results (w s)) [] s Hids)
      as [l Hl].
    rewrite Hl in Hr |- *. by destruct Hr as [-> _]. }
  rewrite get_new_results_eq.
  rewrite <- (check_db_status_congr s) by done. rewrite Hc.
  assert (has_ids (db_results (w s) ++ [d])) as Hids'.
  { apply Forall_app. split; [done|]. constructor; [|constructor].
    unfold d, result_doc. rewrite lookup_insert_eq. by eexists. }
  match goal with
  | |- (get_new_results_loop ?es ?acc ?s').1 = _ =>
      destruct (get_new_results_loop_returns es acc s') as [l Hl];
        [exact Hids'|];
      pose proof (get_new_results_loop_spec es acc s') as Hspec
  end.
  cbv zeta in Hspec. rewrite Hl in Hspec |- *.
  destruct Hspec as (_ & _ & ext & _ & _ & -> & _). f_equal. simpl. fold seen.
  rewrite (new_entries_app seen _ _ Hids), fmap_app. f_equal. simpl.
  assert (d !! "_id" = Some (VS (SObjectId (next_oid (w s))))) as ->.
  { unfold d, result_doc. by rewrite lookup_insert_eq. }
  assert (py_in (VS (SObjectId (next_oid (w s))))
            (seen ++ entry_ids (new_entries seen (db_results (w s)))) = false)
    as ->; [|simpl; unfold d; by rewrite delete_id_result_doc].
  eapply py_in_sublist; [|exact Hfresh].
  apply sublist_app; [done|]. apply entry_ids_sublist, new_entries_sublist.
Qed.
End RoundTrip.

(** ** The store under all the methods *)

Section Store.
Variable bson_error : doc → option exn.
Variable int_of_str : string → option Z.

Lemma stays_Client_init host port :
  stays grows (Client_init int_of_str host port).
Proof.
  st stays_bind; [st stays_bind; [st stays_get|intros; st stays_ret]|].
  intros e.
  st stays_bind; [st stays_bind; [st stays_get|intros; st stays_ret]|].
  intros e'. st stays_bind; [|intros; st stays_ret]. unfold py_int.
  destruct (py_or _ _); try st stays_ret; try st stays_raise.
  destruct (int_of_str s); [st stays_ret|st stays_raise].
Qed.

(** X5.  No method of the two classes changes or removes a stored document,
    whether it returns or raises: after each of them, every collection
    starts with what it held before. *)
Theorem store_append_only (s : ctl) (wd : world) :
  grows (w s) (w (start s).2)
  ∧ grows (w s) (w (check_db_status s).2)
  ∧ grows (w s) (w (get_new_results s).2)
  ∧ (∀ trial, grows (w s) (w (enqueue_trial bson_error trial s).2))
  ∧ (∀ trial_id, grows (w s) (w (add_for_stopping bson_error trial_id s).2))
  ∧ (∀ host port, grows wd (Client_init int_of_str host port wd).2)
  ∧ (∀ id, grows wd (get_trial int_of_str id wd).2)
  ∧ (∀ trial iteration objective context,
       grows wd
         (send_metrics bson_error trial iteration objective context wd).2).
Proof.
  split; [apply stays_start|]. split; [apply stays_check_db_status|].
  split; [apply stays_get_new_results|].
  split; [intros; apply stays_enqueue_trial|].
  split; [intros; apply stays_add_for_stopping|].
  split; [intros; apply stays_Client_init|].
  split; [intros; apply stays_get_trial|].
  intros; apply stays_send_metrics.
Qed.

(** ** A [Database] before and after [start] *)

Lemma check_failure_first s e :
  (check_db_status s).1 = Raise e →
  get_new_results s = (Raise e, s)
  ∧ (∀ trial, enqueue_trial bson_error trial s = (Raise e, s))
  ∧ (∀ trial_id, add_for_stopping bson_error trial_id s = (Raise e, s)).
Proof.
  intros He. pose proof (check_db_status_eq s) as Hc. rewrite He in Hc.
  split; [|split]; intros;
    unfold get_new_results, enqueue_trial, add_for_stopping, bind at 1;
    by rewrite Hc.
Qed.

(** X6.  A [Database] that was constructed (without [reinstantiated]) but
    not started is of no use yet: construction touches nothing, and then
    [get_new_results], [enqueue_trial] and [add_for_stopping] all raise
    [AttributeError] and leave everything as it is. *)
Theorem operations_need_start db_dir p wd :
  ∃ db, Database_init db_dir p false wd = (Return db, wd)
        ∧ collected_results db = []
        ∧ let s := {| self := db; w := wd |} in
          get_new_results s = (Raise no_poll, s)
          ∧ (∀ trial, enqueue_trial bson_error trial s = (Raise no_poll, s))
          ∧ (∀ trial_id,
               add_for_stopping bson_error trial_id s = (Raise no_poll, s)).
Proof.
  eexists. split; [reflexivity|]. split; [reflexivity|].
  by apply check_failure_first.
Qed.

Lemma start_eq (s : ctl) :
  start s =
  match popen_error (w s) with
  | Some e =>
      (Raise (if bool_decide (cls e = FileNotFoundError)
              then Exn FileNotFoundError
                     (msg e +:+ newline
                        +:+ "Check that MongoDB is installed and in PATH.")
              else e), s)
  | None => check_db_status (started_state s)
  end.
Proof.
  unfold start, bind at 1, get. cbv beta iota.
  destruct (popen_error (w s)) as [e|];
    [by destruct (bool_decide (cls e = FileNotFoundError))|].
  unfold bind at 1, on_self, modify. cbv beta iota.
  unfold bind at 1, in_world, sleep, modify. cbv beta iota. reflexivity.
Qed.

(** X7.  When [mongod] is launched and still runs after the grace period,
    [start] returns, having slept once for 1 and stored nothing; the process
    was launched with [--dbpath], [--port] and a [--logpath] inside the data
    directory; and from then on the liveness check passes for as long as the
    process runs. *)
Theorem start_running (s : ctl) :
  popen_error (w s) = None →
  poll (w s) = None →
  start s = (Return tt, started_state s)
  ∧ args <$> mongo_process (self (started_state s))
    = Some ["mongod"; "--dbpath"; dir (self s);
            "--port"; pretty (port (self s));
            "--logpath"; path_join (dir (self s)) "log.txt"]
  ∧ slept (w (started_state s)) = (slept (w s) ++ [1])%list
  ∧ ∀ wd, poll wd = None →
          check_db_status (in_state (started_state s) wd)
          = (Return tt, in_state (started_state s) wd).
Proof.
  intros Hp Hq. rewrite start_eq, Hp. split; [|split; [done|split; [done|]]].
  - erewrite check_db_status_started by done. simpl. by rewrite Hq.
  - intros wd Hwd. erewrite check_db_status_started by done.
    simpl. by rewrite Hwd.
Qed.

(** X8.  How [start] fails.  When [Popen] raises [FileNotFoundError],
    [start] raises [FileNotFoundError] with the hint about the installation
    added to the message; when [Popen] raises an exception of another class,
    that exception passes through as it is, without the hint; in both cases
    there is no sleep and the object stays as it was.  When [mongod] is
    launched and has ended with a return code other than 0 by the end of the
    grace period, [start] raises [EnvironmentError] with that code, after
    the one sleep. *)
Theorem start_failures (s : ctl) :
  (∀ e, popen_error (w s) = Some e → cls e = FileNotFoundError →
        start s
        = (Raise (Exn FileNotFoundError
                    (msg e +:+ newline
                       +:+ "Check that MongoDB is installed and in PATH.")),
           s))
  ∧ (∀ e, popen_error (w s) = Some e → cls e ≠ FileNotFoundError →
          start s = (Raise e, s))
  ∧ (∀ n, popen_error (w s) = None → poll (w s) = Some n → n ≠ 0 →
          start s
          = (Raise (Exn EnvironmentError
                      ("Database exited with code " +:+ pretty n)),
             started_state s)).
Proof.
  split; [|split].
  - intros e He Hc. by rewrite start_eq, He, bool_decide_eq_true_2.
  - intros e He Hc. by rewrite start_eq, He, bool_decide_eq_false_2.
  - intros n Hp Hq Hn. rewrite start_eq, Hp.
    erewrite check_db_status_started by done. simpl. rewrite Hq.
    apply Z.eqb_neq in Hn. by rewrite Hn.
Qed.
End Store.

(** ** Stop requests *)

Lemma stop_requested_grows tid wd wd' :
  grows wd wd' → stop_requested tid wd = true → stop_requested tid wd' = true.
Proof.
  intros (_ & _ & [k Hk]). unfold stop_requested. rewrite Hk, existsb_app.
  by intros ->.
Qed.

Section Stop.
Variable bson_error : doc → option exn.

(** [add_for_stopping] past the liveness check. *)
Lemma add_for_stopping_eq trial_id s :
  (check_db_status s).1 = Return tt →
  add_for_stopping bson_error trial_id s =
  match bson_error (stop_doc trial_id (next_oid (w s))) with
  | Some e => (Raise e, in_state s (take_oid (w s)))
  | None =>
      (Return tt,
       in_state s (append_doc stop (stop_doc trial_id (next_oid (w s)))
                     (take_oid (w s))))
  end.
Proof.
  intros Hc. pose proof (check_db_status_eq s) as Hs. rewrite Hc in Hs.
  unfold add_for_stopping, bind at 1. rewrite Hs.
  unfold bind at 1, in_world.
  rewrite insert_one_fresh by (by vm_compute). cbv zeta.
  fold (stop_doc trial_id (next_oid (w s))).
  by destruct (bson_error _).
Qed.

(** X9.  Stop requests are not deduplicated: two [add_for_stopping] calls
    for the same trial leave two stop requests behind, under two ids, and
    touch neither the trials, nor the results, nor the object. *)
Theorem add_for_stopping_twice trial_id (s s1 s2 : ctl) :
  add_for_stopping bson_error trial_id s = (Return tt, s1) →
  add_for_stopping bson_error trial_id s1 = (Return tt, s2) →
  db_stop (w s2)
  = (db_stop (w s) ++ [stop_doc trial_id (next_oid (w s));
                       stop_doc trial_id (N.succ (next_oid (w s)))])%list
  ∧ stop_doc trial_id (next_oid (w s))
    ≠ stop_doc trial_id (N.succ (next_oid (w s)))
  ∧ db_trials (w s2) = db_trials (w s)
  ∧ db_results (w s2) = db_results (w s)
  ∧ self s2 = self s.
Proof.
  intros H1 H2.
  assert ((check_db_status s).1 = Return tt) as Hc.
  { destruct (check_db_status s).1 as [[]|e] eqn:He; [done|].
    destruct (check_failure_first bson_error s e He) as (_ & _ & Hf).
    by rewrite Hf in H1. }
  rewrite (add_for_stopping_eq _ _ Hc) in H1.
  destruct (bson_error (stop_doc trial_id (next_oid (w s)))); [done|].
  injection H1 as <-.
  assert ((check_db_status
             (in_state s (append_doc stop (stop_doc trial_id (next_oid (w s)))
                            (take_oid (w s))))).1 = Return tt) as Hc'.
  { rewrite <- Hc. by apply check_db_status_congr. }
  rewrite (add_for_stopping_eq _ _ Hc') in H2. simpl in H2.
  destruct (bson_error (stop_doc trial_id (N.succ (next_oid (w s)))));
    [done|].
  injection H2 as <-. simpl. split; [by rewrite <- app_assoc|].
  split; [|done]. intros Heq.
  assert (stop_doc trial_id (next_oid (w s)) !! "_id"
          = stop_doc trial_id (N.succ (next_oid (w s))) !! "_id") as Hid
    by by rewrite <- Heq.
  unfold stop_doc in Hid. rewrite !lookup_insert_eq in Hid.
  injection Hid. lia.
Qed.

(** X10.  A cancellation is permanent: once a [send_metrics] call whose
    record was stored has raised the cancellation signal for a trial, every
    later call for that trial whose record is stored raises it too, in
    whatever state the store has grown into. *)
Theorem cancellation_is_permanent trial iteration objective context
  iteration' objective' context' (wd wd' : world) :
  bson_error (result_doc trial iteration objective context (next_oid wd))
  = None →
  (send_metrics bson_error trial iteration objective context wd).1
  = Raise cancellation →
  grows wd wd' →
  bson_error (result_doc trial iteration' objective' context' (next_oid wd'))
  = None →
  (send_metrics bson_error trial iteration' objective' context' wd').1
  = Raise cancellation.
Proof.
  intros Hd Hr Hg Hd'.
  rewrite (send_metrics_accepted bson_error _ _ _ _ _ Hd) in Hr.
  rewrite (send_metrics_accepted bson_error _ _ _ _ _ Hd'). simpl in *.
  destruct (stop_requested (Trial.id trial) wd) eqn:Hs; [|done].
  by rewrite (stop_requested_grows _ _ _ Hg Hs).
Qed.

(** X11.  When the store refuses the record of a [send_metrics] call, the
    call ends with the driver's exception and nothing is stored; the stop
    requests are not looked at, so that even a trial listed for stopping
    gets the driver's exception and not the cancellation signal. *)
Theorem send_metrics_refused_no_scan trial iteration objective context wd e :
  bson_error (result_doc trial iteration objective context (next_oid wd))
  = Some e →
  let r := send_metrics bson_error trial iteration objective context wd in
  r.1 = Raise e
  ∧ db_results r.2 = db_results wd
  ∧ db_trials r.2 = db_trials wd
  ∧ db_stop r.2 = db_stop wd
  ∧ (e ≠ cancellation → r.1 ≠ Raise cancellation).
Proof.
  intros Hd r. subst r.
  rewrite (send_metrics_refused bson_error _ _ _ _ _ _ Hd). simpl.
  repeat (split; [done|]). intros Hne [= Heq]. by apply Hne.
Qed.
End Stop.

(** ** Normalization and [enqueue_trial] *)

Lemma scalar_eq_to_int v : scalar_eq (to_int v) v = true.
Proof.
  destruct v as [| | | | |[]|]; try apply scalar_eq_refl.
  unfold scalar_eq. simpl. apply dyadic_eqb_refl.
Qed.

Lemma integral_to_int v : integral (to_int v) = integral v.
Proof. by destruct v as [| | | | |[]|]. Qed.

Lemma to_int_not_int64 v n : to_int v ≠ SNumpy np_int64 n.
Proof. by destruct v as [| | | | |[]|]. Qed.

Lemma to_int_idemp v : to_int (to_int v) = to_int v.
Proof. by destruct v as [| | | | |[]|]. Qed.

(** X12.  What the normalization of [enqueue_trial] keeps and removes: the
    new parameters have the same names; each value is [==] to the one it
    replaces and stands for the same integer; none is a [numpy.int64];
    and normalizing again changes nothing. *)
Theorem new_params_sound (parameters : gmap string scalar) :
  dom (new_params parameters) = dom parameters
  ∧ (∀ k v, parameters !! k = Some v →
            ∃ v', new_params parameters !! k = Some v'
                  ∧ scalar_eq v' v = true
                  ∧ integral v' = integral v)
  ∧ (∀ k v n, new_params parameters !! k = Some v → v ≠ SNumpy np_int64 n)
  ∧ new_params (new_params parameters) = new_params parameters.
Proof.
  rewrite !new_params_fmap. split; [apply dom_fmap_L|]. split; [|split].
  - intros k v Hk. exists (to_int v). rewrite lookup_fmap, Hk.
    split; [done|]. split; [apply scalar_eq_to_int|apply integral_to_int].
  - intros k v n Hk. rewrite lookup_fmap in Hk.
    destruct (parameters !! k) as [v0|]; [|done]. injection Hk as <-.
    apply to_int_not_int64.
  - rewrite <- map_fmap_compose. apply map_fmap_ext.
    intros k v _. apply to_int_idemp.
Qed.

Section EnqueueMore.
Variable bson_error : doc → option exn.

(** X13.  [enqueue_trial] stores one document or none: when it returns, the
    trials collection has gained exactly one document, which the driver
    encodes and which carries the id of the trial; when it raises, the
    collection is as before; the results, the stop requests and the object
    are untouched in both cases. *)
Theorem enqueue_trial_one_or_none trial (s : ctl) :
  let r := enqueue_trial bson_error trial s in
  match r.1 with
  | Return _ =>
      ∃ d : doc, db_trials (w r.2) = (db_trials (w s) ++ [d])%list
                 ∧ d !! "trial_id" = Some (Trial.id trial)
                 ∧ bson_error d = None
  | Raise _ => db_trials (w r.2) = db_trials (w s)
  end
  ∧ db_results (w r.2) = db_results (w s)
  ∧ db_stop (w r.2) = db_stop (w s)
  ∧ self r.2 = self s.
Proof.
  cbv zeta. destruct (check_db_status s).1 as [[]|e] eqn:Hc.
  2:{ destruct (check_failure_first bson_error s e Hc) as (_ & -> & _).
      done. }
  rewrite (enqueue_trial_eq bson_error trial s Hc). cbv zeta.
  assert (∀ oid, trial_doc trial oid !! "trial_id" = Some (Trial.id trial))
    as Htid.
  { intros oid. unfold trial_doc. rewrite lookup_insert_ne by done.
    by rewrite lookup_insert_eq. }
  destruct (bson_error (trial_doc trial (next_oid (w s)))) as [e|] eqn:Hd.
  2:{ simpl. split; [|done]. eexists. split; [done|]. by split. }
  destruct (bool_decide (cls e = InvalidDocument)); [|done].
  destruct (Trial.parameters trial) as [|parameters]; [done|].
  destruct (bson_error (<[_ := _]> (trial_doc _ _))) as [e'|] eqn:Hd';
    [done|].
  simpl. split; [|done]. eexists. split; [done|]. split; [|done].
  rewrite lookup_insert_ne by done. apply Htid.
Qed.

(** X14.  Only [InvalidDocument] is retried: on any other exception of the
    first insertion [enqueue_trial] raises it without a second attempt;
    and when the parameters are not a dictionary, the handler of
    [InvalidDocument] itself fails with an [AttributeError]; in both cases
    nothing is stored. *)
Theorem enqueue_trial_no_retry trial (s : ctl) e :
  (check_db_status s).1 = Return tt →
  bson_error (trial_doc trial (next_oid (w s))) = Some e →
  (cls e ≠ InvalidDocument →
   enqueue_trial bson_error trial s = (Raise e, in_state s (take_oid (w s))))
  ∧ (cls e = InvalidDocument →
     ∀ x, Trial.parameters trial = VS x →
          ∃ e', enqueue_trial bson_error trial s
                = (Raise e', in_state s (take_oid (w s)))
                ∧ cls e' = AttributeError).
Proof.
  intros Hc Hd. rewrite (enqueue_trial_eq bson_error trial s Hc). cbv zeta.
  rewrite Hd. split.
  - intros He. by rewrite bool_decide_eq_false_2.
  - intros He x ->. rewrite bool_decide_eq_true_2 by done. by eexists.
Qed.
End EnqueueMore.

(** ** More on [get_trial] *)

Section GetTrial.
Variable bson_error : doc → option exn.
Variable int_of_str : string → option Z.

Lemma environ_get_eq k wd :
  environ_get k wd
  = (Return (match environ wd !! k with
             | Some s => SStr s
             | None => SNone
             end), wd).
Proof. reflexivity. Qed.

Lemma py_int_state x wd : (py_int int_of_str x wd).2 = wd.
Proof. destruct x; try done. simpl. by destruct (int_of_str s). Qed.


(** Lines 163-164, by cases on the first of [id] and the variable that is
    true. *)
Lemma get_trial_id_eq id wd :
  get_trial_id int_of_str id wd =
  let e := match environ wd !! "SHERPA_TRIAL_ID" with
           | Some s => SStr s
           | None => SNone
           end in
  if truthy (py_or id e) then py_int int_of_str (py_or id e) wd
  else (Raise (Exn AssertionError assert_message), wd).
Proof.
  unfold get_trial_id, bind at 1. rewrite environ_get_eq. cbv zeta.
  destruct (truthy (py_or id _)); [|done]. simpl.
  unfold bind at 1. by rewrite environ_get_eq.
Qed.

Lemma get_trial_eq id wd :
  get_trial int_of_str id wd =
  match get_trial_id int_of_str id wd with
  | (Return n, wd') => get_trial_poll n wd'
  | (Raise e, wd') => (Raise e, wd')
  end.
Proof. unfold get_trial, bind. by destruct (get_trial_id _ _ _) as [[]]. Qed.

Lemma get_trial_explicit i wd :
  i ≠ 0 → get_trial int_of_str (SInt i) wd = get_trial_poll i wd.
Proof.
  intros Hi. unfold get_trial, bind at 1. rewrite get_trial_id_eq.
  cbv zeta. unfold py_or. simpl. apply Z.eqb_neq in Hi. rewrite Hi. simpl.
  by rewrite Hi.
Qed.

Lemma get_trial_poll_eq trial_id wd :
  get_trial_poll trial_id wd =
  (match List.filter (matches_trial_id trial_id) (db_trials wd) with
   | [] => Raise (Exn StopIteration "")
   | t :: _ =>
       Return (Trial.make (dict_get t "trial_id") (dict_get t "parameters"))
   end, wd).
Proof.
  destruct (List.filter _ _) as [|t rest] eqn:Hf.
  - by apply get_trial_poll_no_match.
  - by eapply get_trial_poll_match.
Qed.


(** X16.  The corners of the choice of the trial id: an [id] that is false
    ([None], 0, an empty string) is passed over as if no [id] had been given;
    an empty [SHERPA_TRIAL_ID] counts as missing; and one that is not a
    numeral makes [int] fail with a [ValueError], the world unchanged. *)
Theorem get_trial_id_corners id wd :
  (truthy id = false →
   get_trial int_of_str id wd = get_trial int_of_str SNone wd)
  ∧ (environ wd !! "SHERPA_TRIAL_ID" = Some "" →
     get_trial int_of_str SNone wd
     = (Raise (Exn AssertionError assert_message), wd))
  ∧ (∀ s, environ wd !! "SHERPA_TRIAL_ID" = Some s → s ≠ "" →
          int_of_str s = None →
          ∃ e, get_trial int_of_str SNone wd = (Raise e, wd)
               ∧ cls e = ValueError).
Proof.
  split; [|split].
  - intros Hid. rewrite !get_trial_eq, !get_trial_id_eq.
    cbv zeta. unfold py_or. by rewrite Hid.
  - intros Hs. rewrite get_trial_eq, get_trial_id_eq.
    cbv zeta. by rewrite Hs.
  - intros s Hs Hne Hn. rewrite get_trial_eq, get_trial_id_eq.
    cbv zeta. rewrite Hs. unfold py_or. simpl.
    rewrite bool_decide_eq_false_2 by done. simpl. rewrite Hn. by eexists.
Qed.

Lemma get_trial_match i wd (t : doc) rest :
  i ≠ 0 →
  List.filter (matches_trial_id i) (db_trials wd) = t :: rest →
  get_trial int_of_str (SInt i) wd
  = (Return (Trial.make (dict_get t "trial_id") (dict_get t "parameters")),
     wd).
Proof.
  intros Hi Hf. rewrite (get_trial_explicit i wd Hi), get_trial_poll_eq.
  by rewrite Hf.
Qed.

(** X17.  The first match wins: when several trial requests carry the id
    asked for (an integer other than 0 that fits in 8 bytes), [get_trial]
    returns the id and the parameters of the oldest one. *)
Theorem get_trial_first_match i wd (t : doc) rest :
  i ≠ 0 →
  fits_int64 i →
  List.filter (matches_trial_id i) (db_trials wd) = t :: rest →
  get_trial int_of_str (SInt i) wd
  = (Return (Trial.make (dict_get t "trial_id") (dict_get t "parameters")),
     wd).
Proof. intros Hi _ Hf. by eapply get_trial_match. Qed.

Lemma filter_app_l {A} (f : A → bool) l k x rest :
  List.filter f l = x :: rest →
  List.filter f (l ++ k) = x :: (rest ++ List.filter f k)%list.
Proof. intros Hf. by rewrite List.filter_app, Hf. Qed.

(** X18.  Hence a trial enqueued under an id that is already taken (an
    integer other than 0 that fits in 8 bytes) is never handed out: after
    [enqueue_trial], whether it returns or raises, [get_trial] for that id
    still returns the older request. *)
Theorem enqueue_trial_shadowed i (s : ctl) (t : doc) rest trial :
  i ≠ 0 →
  fits_int64 i →
  List.filter (matches_trial_id i) (db_trials (w s)) = t :: rest →
  (get_trial int_of_str (SInt i)
     (w (enqueue_trial bson_error trial s).2)).1
  = Return (Trial.make (dict_get t "trial_id") (dict_get t "parameters")).
Proof.
  intros Hi Hfit Hf.
  destruct (stays_enqueue_trial bson_error trial s) as ([k Hk] & _).
  erewrite get_trial_match; [done|done|].
  rewrite Hk. by apply filter_app_l.
Qed.

(** X19.  What is enqueued is what the worker gets: when the store takes the
    trial at once and no older request carries its (integer, non-zero) id,
    [get_trial] for that id returns the trial itself. *)
Theorem enqueue_then_get_trial trial i (s : ctl) :
  (check_db_status s).1 = Return tt →
  Trial.id trial = VS (SInt i) →
  i ≠ 0 →
  List.filter (matches_trial_id i) (db_trials (w s)) = [] →
  bson_error (trial_doc trial (next_oid (w s))) = None →
  let wd' := w (enqueue_trial bson_error trial s).2 in
  get_trial int_of_str (SInt i) wd' = (Return trial, wd').
Proof.
  intros Hc Hid Hi Hf Hd. cbv zeta.
  rewrite (enqueue_trial_accepted bson_error trial s Hc Hd). simpl.
  erewrite get_trial_match; [|done|].
  2:{ simpl. rewrite List.filter_app, Hf. simpl.
      unfold matches_trial_id, trial_doc.
      rewrite lookup_insert_ne by done. rewrite lookup_insert_eq, Hid.
      by rewrite Z.eqb_refl. }
  f_equal. f_equal. destruct trial as [tid tp]. simpl in Hid. subst tid.
  unfold dict_get, trial_doc. simpl.
  rewrite (lookup_insert_ne _ "_id" "trial_id") by done.
  rewrite (lookup_insert_ne _ "_id" "parameters") by done.
  rewrite lookup_insert_eq, lookup_insert_ne by done.
  by rewrite lookup_singleton_eq.
Qed.


(** ** [Client.__init__] *)

Lemma Client_init_eq host port wd :
  Client_init int_of_str host port wd =
  let get k := match environ wd !! k with
               | Some s => SStr s
               | None => SNone
               end in
  let h := py_or (py_or host (get "SHERPA_DB_HOST")) (SStr "localhost") in
  let p := py_or (py_or port (get "SHERPA_DB_PORT")) (SInt 27010) in
  match py_int int_of_str p wd with
  | (Return n, _) => (Return (Client.make h n), wd)
  | (Raise e, _) => (Raise e, wd)
  end.
Proof.
  unfold Client_init, bind at 1. rewrite environ_get_eq. cbv zeta beta iota.
  unfold bind at 1. rewrite environ_get_eq. cbv beta iota.
  unfold bind at 1.
  match goal with |- context [py_int int_of_str ?x wd] =>
    pose proof (py_int_state x wd) as Hst;
    destruct (py_int int_of_str x wd) as [[n|e] wd0] end;
    simpl in Hst; by subst wd0.
Qed.

(** X21.  Where a worker connects: with nothing given and nothing in the
    environment, to [localhost:27010]; with a host and a (non-zero) port
    given, to these, whatever the environment says; with nothing given, to
    the host and the port of [SHERPA_DB_HOST] and [SHERPA_DB_PORT]. *)
Theorem Client_init_precedence wd :
  (environ wd !! "SHERPA_DB_HOST" = None →
   environ wd !! "SHERPA_DB_PORT" = None →
   Client_init int_of_str SNone SNone wd
   = (Return (Client.make (SStr "localhost") 27010), wd))
  ∧ (∀ h p, h ≠ "" → p ≠ 0 →
            Client_init int_of_str (SStr h) (SInt p) wd
            = (Return (Client.make (SStr h) p), wd))
  ∧ (∀ h s p, environ wd !! "SHERPA_DB_HOST" = Some h → h ≠ "" →
              environ wd !! "SHERPA_DB_PORT" = Some s → s ≠ "" →
              int_of_str s = Some p →
              Client_init int_of_str SNone SNone wd
              = (Return (Client.make (SStr h) p), wd)).
Proof.
  split; [|split].
  - intros Hh Hp. rewrite Client_init_eq. cbv zeta beta. by rewrite Hh, Hp.
  - intros h p Hh Hp. rewrite Client_init_eq. cbv zeta beta. unfold py_or.
    apply Z.eqb_neq in Hp.
    repeat first [progress simpl | rewrite Hp
                 | rewrite bool_decide_eq_false_2 by done].
    done.
  - intros h s p Hh Hhne Hs Hsne Hp. rewrite Client_init_eq. cbv zeta beta.
    rewrite Hh, Hs. unfold py_or.
    repeat first [progress simpl | rewrite Hp
                 | rewrite bool_decide_eq_false_2 by done].
    done.
Qed.

(** X22.  The corners of that choice: a port of 0 or an empty host given as
    argument, and an empty variable, are passed over; the host that results
    is never false (it is [localhost] at the least); a port variable that is
    not a numeral makes the construction fail with a [ValueError]; and the
    world is never changed. *)
Theorem Client_init_corners host port wd :
  (Client_init int_of_str host port wd).2 = wd
  ∧ (∀ c, (Client_init int_of_str host port wd).1 = Return c →
          truthy (Client.host c) = true)
  ∧ (truthy host = false → truthy port = false →
     Client_init int_of_str host port wd
     = Client_init int_of_str SNone SNone wd)
  ∧ (environ wd !! "SHERPA_DB_HOST" = Some "" →
     environ wd !! "SHERPA_DB_PORT" = Some "" →
     Client_init int_of_str SNone SNone wd
     = (Return (Client.make (SStr "localhost") 27010), wd))
  ∧ (∀ s, environ wd !! "SHERPA_DB_PORT" = Some s → s ≠ "" →
          int_of_str s = None →
          ∃ e, (Client_init int_of_str SNone SNone wd).1 = Raise e
               ∧ cls e = ValueError).
Proof.
  split; [|split; [|split; [|split]]].
  - rewrite Client_init_eq. cbv zeta beta. by destruct (py_int _ _ _) as [[]].
  - intros c. rewrite Client_init_eq. cbv zeta beta.
    destruct (py_int _ _ _) as [[n|e] ?]; [|done]. intros [= <-]. simpl.
    unfold py_or at 1. by destruct (truthy (py_or host _)) eqn:Ht.
  - intros Hh Hp. rewrite !Client_init_eq. cbv zeta beta. unfold py_or.
    by rewrite Hh, Hp.
  - intros Hh Hp. rewrite Client_init_eq. cbv zeta beta. by rewrite Hh, Hp.
  - intros s Hs Hne Hn. rewrite Client_init_eq. cbv zeta beta. rewrite Hs.
    unfold py_or.
    repeat first [progress simpl | rewrite Hn
                 | rewrite bool_decide_eq_false_2 by done].
    by eexists.
Qed.
End GetTrial.

(** * The further properties at concrete inputs *)

Lemma get_new_results_twice_witness :
  get_new_results (in_state started reported_world)
  = (Return [delete "_id" report_1],
     {| self := set_collected_results [VS (SObjectId 0)]
                  (running "/tmp/db" 27010);
        w := reported_world |})
  ∧ get_new_results
      {| self := set_collected_results [VS (SObjectId 0)]
                   (running "/tmp/db" 27010);
         w := reported_world |}
    = (Return [],
       {| self := set_collected_results [VS (SObjectId 0)]
                    (running "/tmp/db" 27010);
          w := reported_world |}).
Proof.
  assert (get_new_results (in_state started reported_world)
          = (Return [delete "_id" report_1],
             {| self := set_collected_results [VS (SObjectId 0)]
                          (running "/tmp/db" 27010);
                w := reported_world |})) as Hrun
    by (vm_compute; reflexivity).
  split; [exact Hrun|]. exact (get_new_results_twice _ _ _ Hrun).
Defined.

Lemma get_new_results_in_store_order_witness :
  get_new_results (in_state started reported_twice_world)
  = (Return [delete "_id" report_1; delete "_id" report_2],
     {| self := set_collected_results [VS (SObjectId 0); VS (SObjectId 1)]
                  (running "/tmp/db" 27010);
        w := reported_twice_world |})
  ∧ [delete "_id" report_1; delete "_id" report_2]
    `sublist_of`
    (delete "_id" <$> db_results (w (in_state started reported_twice_world))).
Proof.
  assert (get_new_results (in_state started reported_twice_world)
          = (Return [delete "_id" report_1; delete "_id" report_2],
             {| self := set_collected_results
                          [VS (SObjectId 0); VS (SObjectId 1)]
                          (running "/tmp/db" 27010);
                w := reported_twice_world |})) as Hrun
    by (vm_compute; reflexivity).
  split; [exact Hrun|]. exact (get_new_results_in_store_order _ _ _ Hrun).
Defined.

Lemma get_new_results_missing_id_witness :
  (check_db_status (in_state started broken_world)).1 = Return tt
  ∧ (get_new_results (in_state started broken_world)).1
    = Raise (Exn KeyError "'_id'")
  ∧ collected_results (self (get_new_results (in_state started broken_world)).2)
    = (collected_results (self (in_state started broken_world))
         ++ entry_ids
              (new_entries
                 (collected_results (self (in_state started broken_world)))
                 [report_1]))%list.
Proof.
  assert ((check_db_status (in_state started broken_world)).1 = Return tt)
    as Hc by (vm_compute; reflexivity).
  split; [exact Hc|].
  destruct (get_new_results_missing_id (in_state started broken_world)
              [report_1] [] (delete "_id" report_2) Hc) as (H1 & H2 & _).
  - reflexivity.
  - constructor; [|constructor]. exists (VS (SObjectId 0)).
    vm_compute; reflexivity.
  - vm_compute; reflexivity.
  - split; [exact H1|exact H2].
Defined.

Lemma report_is_delivered_witness :
  ∃ l0,
    (get_new_results (in_state started after_report)).1 = Return l0
    ∧ (get_new_results
         (in_state (in_state started after_report)
            (send_metrics rejects_numpy trial_1 (SInt 2) (SFloat 1 (-2))
               (VDict ∅) (w (in_state started after_report))).2)).1
      = Return (l0 ++ [result_record trial_1 (SInt 2) (SFloat 1 (-2))
                         (VDict ∅)])%list.
Proof.
  apply (report_is_delivered rejects_numpy trial_1 (SInt 2) (SFloat 1 (-2))
           (VDict ∅) (in_state started after_report)).
  - vm_compute; reflexivity.
  - constructor; [|constructor]. exists (VS (SObjectId 0)).
    vm_compute; reflexivity.
  - vm_compute; reflexivity.
  - vm_compute; reflexivity.
Defined.

Lemma start_running_witness :
  popen_error (w (not_started empty_world)) = None
  ∧ poll (w (not_started empty_world)) = None
  ∧ start (not_started empty_world)
    = (Return tt, started_state (not_started empty_world)).
Proof.
  split; [reflexivity|]. split; [reflexivity|].
  apply (start_running (not_started empty_world)); reflexivity.
Defined.

Lemma start_failures_witness :
  start (not_started no_mongod)
  = (Raise (Exn FileNotFoundError
              ("[Errno 2] No such file or directory: 'mongod'" +:+ newline
                 +:+ "Check that MongoDB is installed and in PATH.")),
     not_started no_mongod)
  ∧ start (not_started mongod_not_executable)
    = (Raise (Exn OtherError "[Errno 13] Permission denied: 'mongod'"),
       not_started mongod_not_executable)
  ∧ start (not_started (with_poll (Some 48) empty_world))
    = (Raise (Exn EnvironmentError
                ("Database exited with code " +:+ pretty 48)),
       started_state (not_started (with_poll (Some 48) empty_world))).
Proof.
  destruct (start_failures (not_started no_mongod)) as (H1 & _ & _).
  destruct (start_failures (not_started mongod_not_executable))
    as (_ & H2 & _).
  destruct (start_failures (not_started (with_poll (Some 48) empty_world)))
    as (_ & _ & H3).
  split; [|split].
  - apply (H1 (Exn FileNotFoundError
                 "[Errno 2] No such file or directory: 'mongod'"));
      reflexivity.
  - apply (H2 (Exn OtherError "[Errno 13] Permission denied: 'mongod'"));
      [reflexivity|discriminate].
  - apply (H3 48); [reflexivity|reflexivity|lia].
Defined.

Lemma add_for_stopping_twice_witness :
  add_for_stopping rejects_numpy (SInt 1) started
  = (Return tt,
     in_state started
       (append_doc stop (stop_doc (SInt 1) 0) (take_oid empty_world)))
  ∧ add_for_stopping rejects_numpy (SInt 1)
      (in_state started
         (append_doc stop (stop_doc (SInt 1) 0) (take_oid empty_world)))
    = (Return tt,
       in_state started
         (append_doc stop (stop_doc (SInt 1) 1)
            (take_oid
               (append_doc stop (stop_doc (SInt 1) 0)
                  (take_oid empty_world)))))
  ∧ db_stop
      (w (in_state started
            (append_doc stop (stop_doc (SInt 1) 1)
               (take_oid
                  (append_doc stop (stop_doc (SInt 1) 0)
                     (take_oid empty_world))))))
    = (db_stop (w started)
         ++ [stop_doc (SInt 1) (next_oid (w started));
             stop_doc (SInt 1) (N.succ (next_oid (w started)))])%list.
Proof.
  assert (add_for_stopping rejects_numpy (SInt 1) started
          = (Return tt,
             in_state started
               (append_doc stop (stop_doc (SInt 1) 0) (take_oid empty_world))))
    as H1 by (vm_compute; reflexivity).
  assert (add_for_stopping rejects_numpy (SInt 1)
            (in_state started
               (append_doc stop (stop_doc (SInt 1) 0) (take_oid empty_world)))
          = (Return tt,
             in_state started
               (append_doc stop (stop_doc (SInt 1) 1)
                  (take_oid
                     (append_doc stop (stop_doc (SInt 1) 0)
                        (take_oid empty_world))))))
    as H2 by (vm_compute; reflexivity).
  split; [exact H1|]. split; [exact H2|].
  exact (proj1 (add_for_stopping_twice rejects_numpy _ _ _ _ H1 H2)).
Defined.

Lemma cancellation_is_permanent_witness :
  (send_metrics rejects_numpy trial_1 (SInt 1) (SFloat 1 (-1)) (VDict ∅)
     stopped_world).1 = Raise cancellation
  ∧ (send_metrics rejects_numpy trial_1 (SInt 2) (SFloat 1 (-2)) (VDict ∅)
       (send_metrics rejects_numpy trial_1 (SInt 1) (SFloat 1 (-1)) (VDict ∅)
          stopped_world).2).1 = Raise cancellation.
Proof.
  assert ((send_metrics rejects_numpy trial_1 (SInt 1) (SFloat 1 (-1))
             (VDict ∅) stopped_world).1 = Raise cancellation) as H1
    by (vm_compute; reflexivity).
  split; [exact H1|].
  apply (cancellation_is_permanent rejects_numpy trial_1 (SInt 1)
           (SFloat 1 (-1)) (VDict ∅) (SInt 2) (SFloat 1 (-2)) (VDict ∅)
           stopped_world).
  - vm_compute; reflexivity.
  - exact H1.
  - apply stays_send_metrics.
  - vm_compute; reflexivity.
Defined.

Lemma send_metrics_refused_no_scan_witness :
  rejects_numpy
    (result_doc trial_1 (SInt 1) (SNumpy np_int64 1) (VDict ∅)
       (next_oid stopped_world))
  = Some (Exn InvalidDocument "cannot encode object")
  ∧ (send_metrics rejects_numpy trial_1 (SInt 1) (SNumpy np_int64 1)
       (VDict ∅) stopped_world).1
    = Raise (Exn InvalidDocument "cannot encode object").
Proof.
  assert (rejects_numpy
            (result_doc trial_1 (SInt 1) (SNumpy np_int64 1) (VDict ∅)
               (next_oid stopped_world))
          = Some (Exn InvalidDocument "cannot encode object")) as Hd
    by (vm_compute; reflexivity).
  split; [exact Hd|].
  exact (proj1 (send_metrics_refused_no_scan rejects_numpy trial_1 (SInt 1)
                  (SNumpy np_int64 1) (VDict ∅) stopped_world _ Hd)).
Defined.

Lemma new_params_sound_witness :
  ∃ v', new_params {[ "batch_size" := SNumpy np_int64 32 ]} !! "batch_size"
        = Some v'
        ∧ scalar_eq v' (SNumpy np_int64 32) = true
        ∧ integral v' = integral (SNumpy np_int64 32).
Proof.
  destruct (new_params_sound {[ "batch_size" := SNumpy np_int64 32 ]})
    as (_ & H & _).
  apply (H "batch_size"). vm_compute; reflexivity.
Defined.

Lemma enqueue_trial_no_retry_witness :
  enqueue_trial rejects_wide trial_wide started
  = (Raise (Exn OtherError "MongoDB can only handle up to 8-byte ints"),
     in_state started (take_oid (w started)))
  ∧ ∃ e', enqueue_trial rejects_numpy trial_no_dict started
          = (Raise e', in_state started (take_oid (w started)))
          ∧ cls e' = AttributeError.
Proof.
  split.
  - apply (enqueue_trial_no_retry rejects_wide trial_wide started
             (Exn OtherError "MongoDB can only handle up to 8-byte ints"));
      [vm_compute; reflexivity|vm_compute; reflexivity|discriminate].
  - apply (enqueue_trial_no_retry rejects_numpy trial_no_dict started
             (Exn InvalidDocument "cannot encode object")
             ltac:(vm_compute; reflexivity) ltac:(vm_compute; reflexivity))
      with (x := SNone); reflexivity.
Defined.


Lemma get_trial_id_corners_witness :
  get_trial decimal (SInt 0) worker_world = get_trial decimal SNone worker_world
  ∧ get_trial decimal SNone
      (with_environ {[ "SHERPA_TRIAL_ID" := "" ]} empty_world)
    = (Raise (Exn AssertionError assert_message),
       with_environ {[ "SHERPA_TRIAL_ID" := "" ]} empty_world)
  ∧ ∃ e, get_trial decimal SNone
           (with_environ {[ "SHERPA_TRIAL_ID" := "seven" ]} empty_world)
         = (Raise e,
            with_environ {[ "SHERPA_TRIAL_ID" := "seven" ]} empty_world)
         ∧ cls e = ValueError.
Proof.
  destruct (get_trial_id_corners decimal (SInt 0) worker_world)
    as (H1 & _ & _).
  destruct (get_trial_id_corners decimal SNone
              (with_environ {[ "SHERPA_TRIAL_ID" := "" ]} empty_world))
    as (_ & H2 & _).
  destruct (get_trial_id_corners decimal SNone
              (with_environ {[ "SHERPA_TRIAL_ID" := "seven" ]} empty_world))
    as (_ & _ & H3).
  split; [apply H1; reflexivity|].
  split; [apply H2; vm_compute; reflexivity|].
  apply (H3 "seven");
    [vm_compute; reflexivity|discriminate|vm_compute; reflexivity].
Defined.

Lemma get_trial_first_match_witness :
  fits_int64 1
  ∧ List.filter (matches_trial_id 1) (db_trials enqueued_twice)
    = [trial_doc trial_1 0; trial_doc trial_1_again 1]
  ∧ get_trial decimal (SInt 1) enqueued_twice
    = (Return (Trial.make (dict_get (trial_doc trial_1 0) "trial_id")
                 (dict_get (trial_doc trial_1 0) "parameters")),
       enqueued_twice)
  ∧ Trial.make (dict_get (trial_doc trial_1 0) "trial_id")
      (dict_get (trial_doc trial_1 0) "parameters") = trial_1
  ∧ trial_1 ≠ trial_1_again.
Proof.
  assert (fits_int64 1) as Hfit by (unfold fits_int64; lia).
  assert (List.filter (matches_trial_id 1) (db_trials enqueued_twice)
          = [trial_doc trial_1 0; trial_doc trial_1_again 1]) as Hf
    by (vm_compute; reflexivity).
  split; [exact Hfit|]. split; [exact Hf|]. split.
  - apply (get_trial_first_match decimal 1 enqueued_twice _ _
             ltac:(lia) Hfit Hf).
  - split; [vm_compute; reflexivity|]. intros Heq.
    assert (Trial.parameters trial_1 = Trial.parameters trial_1_again)
      as Hp by (by rewrite Heq).
    vm_compute in Hp. discriminate Hp.
Defined.

Lemma enqueue_trial_shadowed_witness :
  fits_int64 1
  ∧ List.filter (matches_trial_id 1) (db_trials (w enqueued))
    = [trial_doc trial_1 0]
  ∧ (get_trial decimal (SInt 1)
       (w (enqueue_trial rejects_numpy trial_1_again enqueued).2)).1
    = Return (Trial.make (dict_get (trial_doc trial_1 0) "trial_id")
                (dict_get (trial_doc trial_1 0) "parameters")).
Proof.
  assert (fits_int64 1) as Hfit by (unfold fits_int64; lia).
  assert (List.filter (matches_trial_id 1) (db_trials (w enqueued))
          = [trial_doc trial_1 0]) as Hf by (vm_compute; reflexivity).
  split; [exact Hfit|]. split; [exact Hf|].
  apply (enqueue_trial_shadowed rejects_numpy decimal 1 enqueued _ []
           trial_1_again ltac:(lia) Hfit Hf).
Defined.

Lemma enqueue_then_get_trial_witness :
  rejects_numpy (trial_doc trial_1 (next_oid (w started))) = None
  ∧ get_trial decimal (SInt 1)
      (w (enqueue_trial rejects_numpy trial_1 started).2)
    = (Return trial_1, w (enqueue_trial rejects_numpy trial_1 started).2).
Proof.
  assert (rejects_numpy (trial_doc trial_1 (next_oid (w started))) = None)
    as Hd by (vm_compute; reflexivity).
  split; [exact Hd|].
  apply (enqueue_then_get_trial rejects_numpy decimal trial_1 1 started);
    [vm_compute; reflexivity|reflexivity|lia|reflexivity|exact Hd].
Defined.


Lemma Client_init_precedence_witness :
  Client_init decimal SNone SNone empty_world
  = (Return (Client.make (SStr "localhost") 27010), empty_world)
  ∧ Client_init decimal (SStr "node7") (SInt 27017) empty_world
    = (Return (Client.make (SStr "node7") 27017), empty_world)
  ∧ Client_init decimal SNone SNone
      (with_environ {[ "SHERPA_DB_HOST" := "node7";
                       "SHERPA_DB_PORT" := "27017" ]} empty_world)
    = (Return (Client.make (SStr "node7") 27017),
       with_environ {[ "SHERPA_DB_HOST" := "node7";
                       "SHERPA_DB_PORT" := "27017" ]} empty_world).
Proof.
  split; [|split].
  - apply (Client_init_precedence decimal empty_world);
      vm_compute; reflexivity.
  - apply (Client_init_precedence decimal empty_world); [discriminate|lia].
  - apply (Client_init_precedence decimal
             (with_environ {[ "SHERPA_DB_HOST" := "node7";
                              "SHERPA_DB_PORT" := "27017" ]} empty_world))
      with (s := "27017");
      [vm_compute; reflexivity|discriminate|vm_compute; reflexivity
      |discriminate|vm_compute; reflexivity].
Defined.

Lemma Client_init_corners_witness :
  Client_init decimal (SStr "") (SInt 0) empty_world
  = Client_init decimal SNone SNone empty_world
  ∧ ∃ e, (Client_init decimal SNone SNone
            (with_environ {[ "SHERPA_DB_PORT" := "mongo" ]} empty_world)).1
         = Raise e
         ∧ cls e = ValueError.
Proof.
  destruct (Client_init_corners decimal (SStr "") (SInt 0) empty_world)
    as (_ & _ & H3 & _).
  destruct (Client_init_corners decimal SNone SNone
              (with_environ {[ "SHERPA_DB_PORT" := "mongo" ]} empty_world))
    as (_ & _ & _ & _ & H5).
  split; [apply H3; reflexivity|].
  apply (H5 "mongo");
    [vm_compute; reflexivity|discriminate|vm_compute; reflexivity].
Defined.
